(** * Memory game (js/script.js): a shallow embedding and its properties

    The script defines three classes: [MemoryButton] (one numbered piece and
    its DOM element), [UIHandler] (the number input, the Go button and the
    status line) and [GameEngine] (round state, scramble timers, click
    arbitration).  Objects become records, methods become functions that
    return the updated record, and what the script leaves to the browser
    (the timer queue, the clock, the window size, [Math.random]) is the
    explicit [Browser] state the engine runs in. *)

From Stdlib Require Import ZArith QArith Qround String Ascii List Lia.
From Stdlib Require Import DecimalString HexadecimalString.
From stdpp Require Import base list.
Import ListNotations.

Open Scope string_scope.
Open Scope Z_scope.

(** ** JavaScript values used by the script *)

(** A Number that is an integer or NaN, as [parseInt] returns it. *)
Inductive Number :=
| NaN
| Int (z : Z).

(** [a >= b] and [a <= b] against an integer literal: false on NaN. *)
Definition num_ge (a : Number) (b : Z) : bool :=
  match a with NaN => false | Int z => b <=? z end.

Definition num_le (a : Number) (b : Z) : bool :=
  match a with NaN => false | Int z => z <=? b end.

(** Number-to-string conversion of an integer (template literals and
    [textContent = this.order]). *)
Definition toString (z : Z) : string :=
  DecimalString.NilZero.string_of_int (Z.to_int z).

(** [Number.prototype.toString(16)] of an integer. *)
Definition toString16 (z : Z) : string :=
  HexadecimalString.NilZero.string_of_int (Z.to_hex_int z).

(** *** parseInt(string), radix omitted *)

Definition isAsciiWhiteSpace (c : ascii) : bool :=
  match nat_of_ascii c with
  | 9%nat | 10%nat | 11%nat | 12%nat | 13%nat | 32%nat => true
  | _ => false
  end.

(** One leading StrWhiteSpaceChar removed, if there is one.  Strings are
    byte strings, so the white space outside ASCII is matched in UTF-8:
    U+00A0, U+1680, U+2000..U+200A, U+2028, U+2029, U+202F, U+205F, U+3000
    and U+FEFF. *)
Definition stripWhiteSpaceChar (s : string) : option string :=
  match s with
  | String c r =>
      if isAsciiWhiteSpace c then Some r
      else
        match nat_of_ascii c, r with
        | 194%nat, String d r' =>
            if (nat_of_ascii d =? 160)%nat then Some r' else None
        | 225%nat, String d (String e r') =>
            if ((nat_of_ascii d =? 154) && (nat_of_ascii e =? 128))%nat
            then Some r' else None
        | 226%nat, String d (String e r') =>
            let d := nat_of_ascii d in
            let e := nat_of_ascii e in
            if ((d =? 128) && (((128 <=? e) && (e <=? 138)) || (e =? 168)
                                || (e =? 169) || (e =? 175)))%nat
            then Some r'
            else if ((d =? 129) && (e =? 159))%nat then Some r' else None
        | 227%nat, String d (String e r') =>
            if ((nat_of_ascii d =? 128) && (nat_of_ascii e =? 128))%nat
            then Some r' else None
        | 239%nat, String d (String e r') =>
            if ((nat_of_ascii d =? 187) && (nat_of_ascii e =? 191))%nat
            then Some r' else None
        | _, _ => None
        end
  | EmptyString => None
  end.

(** Leading white space removed; the fuel is the length of the string, and
    every removal shortens it. *)
Fixpoint trimStart_fuel (fuel : nat) (s : string) : string :=
  match fuel with
  | O => s
  | S fuel' =>
      match stripWhiteSpaceChar s with
      | Some r => trimStart_fuel fuel' r
      | None => s
      end
  end.

Definition trimStart (s : string) : string :=
  trimStart_fuel (String.length s) s.

Definition isDigit (c : ascii) : bool :=
  let k := nat_of_ascii c in ((48 <=? k) && (k <=? 57))%nat.

(** The value of a character as a digit of any radix up to 36. *)
Definition digitValue (c : ascii) : option Z :=
  let k := nat_of_ascii c in
  if ((48 <=? k) && (k <=? 57))%nat then Some (Z.of_nat k - 48)
  else if ((97 <=? k) && (k <=? 122))%nat then Some (Z.of_nat k - 87)
  else if ((65 <=? k) && (k <=? 90))%nat then Some (Z.of_nat k - 55)
  else None.

(** The longest prefix of radix-[radix] digits, read as a number; [acc] is
    [None] until the first digit has been read. *)
Fixpoint parseDigits (radix : Z) (s : string) (acc : option Z) : option Z :=
  match s with
  | String c r =>
      match digitValue c with
      | Some d =>
          if d <? radix
          then parseDigits radix r (Some (radix * default 0 acc + d))
          else acc
      | None => acc
      end
  | EmptyString => acc
  end.

(** White space is skipped, a sign is read, a [0x]/[0X] prefix selects radix
    16, and the digits up to the first character that is not one are the
    result; NaN when there is no digit.  Integers are exact here, where a
    Number rounds beyond 2^53: rounding moves no integer into or out of the
    range the script tests. *)
Definition parseInt (s : string) : Number :=
  let s1 := trimStart s in
  let '(sign, s2) :=
    match s1 with
    | String "-" r => (-1, r)
    | String "+" r => (1, r)
    | _ => (1, s1)
    end in
  let '(radix, s3) :=
    match s2 with
    | String "0" (String "x" r) => (16, r)
    | String "0" (String "X" r) => (16, r)
    | _ => (10, s2)
    end in
  match parseDigits radix s3 None with
  | Some m => Int (sign * m)
  | None => NaN
  end.

(** *** The value of an <input type="number">

    The value of a number input is sanitized: text that is not a valid
    floating-point number reads back as the empty string. *)

Fixpoint skipDigits (s : string) : string :=
  match s with
  | String c r => if isDigit c then skipDigits r else s
  | EmptyString => s
  end.

Definition startsWithDigit (s : string) : bool :=
  match s with
  | String c _ => isDigit c
  | EmptyString => false
  end.

Definition validExponent (s : string) : bool :=
  match s with
  | EmptyString => true
  | String c r =>
      if (Ascii.eqb c "e" || Ascii.eqb c "E")%bool then
        let r' :=
          match r with
          | String "-" t => t
          | String "+" t => t
          | _ => r
          end in
        startsWithDigit r' && String.eqb (skipDigits r') ""
      else false
  end.

Definition isValidFloatingPointNumber (s : string) : bool :=
  let s1 := match s with String "-" r => r | _ => s end in
  let s2 := skipDigits s1 in
  match s2 with
  | String "." r =>
      startsWithDigit r && validExponent (skipDigits r)
  | _ => startsWithDigit s1 && validExponent s2
  end.

Definition sanitizeNumberInput (text : string) : string :=
  if isValidFloatingPointNumber text then text else "".

(** *** Assigning a colour to [style.backgroundColor]

    The browser keeps a declaration only if the string is a CSS colour.
    The colours the script makes are [#] followed by the hexadecimal digits
    of a number, and of the strings of that shape the colours are those
    with 3, 4, 6 or 8 digits ([#rgb], [#rgba], [#rrggbb], [#rrggbbaa]);
    an assignment of any other of them changes nothing.  A colour is kept
    here as its four channels, 0..255, not as the text the browser prints
    for it.  Strings that do not start with [#] (colour names, [rgb(...)])
    are not read: the function is for the script's own colours. *)

Record CssColor := mkCssColor {
  red : Z;
  green : Z;
  blue : Z;
  alpha : Z
}.

(** The values of the characters of [s], if all are hexadecimal digits. *)
Fixpoint hexValues (s : string) : option (list Z) :=
  match s with
  | EmptyString => Some []
  | String c r =>
      match digitValue c with
      | Some d => if d <? 16 then option_map (cons d) (hexValues r) else None
      | None => None
      end
  end.

Definition parseCssColor (s : string) : option CssColor :=
  match s with
  | String "#" digits =>
      match hexValues digits with
      | Some [r; g; b] => Some (mkCssColor (17 * r) (17 * g) (17 * b) 255)
      | Some [r; g; b; a] =>
          Some (mkCssColor (17 * r) (17 * g) (17 * b) (17 * a))
      | Some [r1; r2; g1; g2; b1; b2] =>
          Some (mkCssColor (16 * r1 + r2) (16 * g1 + g2) (16 * b1 + b2) 255)
      | Some [r1; r2; g1; g2; b1; b2; a1; a2] =>
          Some (mkCssColor (16 * r1 + r2) (16 * g1 + g2) (16 * b1 + b2)
                  (16 * a1 + a2))
      | _ => None
      end
  | _ => None
  end.

(** ** The DOM elements and the objects of the script *)

(** The one function the script ever installs as a button's [onclick]:
    [() => callback(this)], where [callback] is the engine's
    [(clickedBtn) => this.handleButtonClick(clickedBtn)]. *)
Inductive ClickHandler :=
| HandleButtonClick.

Record Element := mkElement {
  className : string;
  textContent : string;
  style_backgroundColor : option CssColor;   (* the colour declared, if any *)
  style_position : string;
  style_display : string;
  style_marginRight : string;
  style_left : string;
  style_top : string;
  onclick : option ClickHandler
}.

(** [document.createElement('button')]: nothing set yet. *)
Definition createElement : Element :=
  mkElement "" "" None "" "" "" "" "" None.

Definition set_className (v : string) (e : Element) : Element :=
  mkElement v (textContent e) (style_backgroundColor e) (style_position e)
    (style_display e) (style_marginRight e) (style_left e) (style_top e)
    (onclick e).

(** [e.style.backgroundColor = v]: kept if [v] is a colour, ignored
    otherwise. *)
Definition set_style_backgroundColor (v : string) (e : Element) : Element :=
  mkElement (className e) (textContent e)
    (match parseCssColor v with
     | Some c => Some c
     | None => style_backgroundColor e
     end)
    (style_position e) (style_display e) (style_marginRight e)
    (style_left e) (style_top e) (onclick e).

Definition set_textContent (v : string) (e : Element) : Element :=
  mkElement (className e) v (style_backgroundColor e) (style_position e)
    (style_display e) (style_marginRight e) (style_left e) (style_top e)
    (onclick e).

Definition set_style_position (v : string) (e : Element) : Element :=
  mkElement (className e) (textContent e) (style_backgroundColor e) v
    (style_display e) (style_marginRight e) (style_left e) (style_top e)
    (onclick e).

Definition set_style_display (v : string) (e : Element) : Element :=
  mkElement (className e) (textContent e) (style_backgroundColor e)
    (style_position e) v (style_marginRight e) (style_left e) (style_top e)
    (onclick e).

Definition set_style_marginRight (v : string) (e : Element) : Element :=
  mkElement (className e) (textContent e) (style_backgroundColor e)
    (style_position e) (style_display e) v (style_left e) (style_top e)
    (onclick e).

Definition set_style_left (v : string) (e : Element) : Element :=
  mkElement (className e) (textContent e) (style_backgroundColor e)
    (style_position e) (style_display e) (style_marginRight e) v
    (style_top e) (onclick e).

Definition set_style_top (v : string) (e : Element) : Element :=
  mkElement (className e) (textContent e) (style_backgroundColor e)
    (style_position e) (style_display e) (style_marginRight e)
    (style_left e) v (onclick e).

Definition set_onclick (v : option ClickHandler) (e : Element) : Element :=
  mkElement (className e) (textContent e) (style_backgroundColor e)
    (style_position e) (style_display e) (style_marginRight e)
    (style_left e) (style_top e) v.

(** *** class MemoryButton *)

Record MemoryButton := mkMemoryButton {
  btn_id : string;       (* this.id *)
  color : string;
  order : Z;
  element : Element
}.

Definition on_element (f : Element -> Element) (b : MemoryButton)
  : MemoryButton :=
  mkMemoryButton (btn_id b) (color b) (order b) (f (element b)).

Definition createHTMLElement (color : string) (order : Z) : Element :=
  let btn := createElement in
  let btn := set_className "memory-button" btn in
  let btn := set_style_backgroundColor color btn in
  set_textContent (toString order) btn.

Definition new_MemoryButton (id color : string) (originalOrder : Z)
  : MemoryButton :=
  mkMemoryButton id color originalOrder
    (createHTMLElement color originalOrder).

Definition setPosition (x y : Z) (b : MemoryButton) : MemoryButton :=
  on_element (set_style_top (toString y ++ "px"))
    (on_element (set_style_left (toString x ++ "px")) b).

Definition showNumber (show : bool) (b : MemoryButton) : MemoryButton :=
  on_element (set_textContent (if show then toString (order b) else "")) b.

Definition enableClick (callback : ClickHandler) (b : MemoryButton)
  : MemoryButton :=
  on_element (set_onclick (Some callback)) b.

Definition disableClick (b : MemoryButton) : MemoryButton :=
  on_element (set_onclick None) b.

(** *** class UIHandler

    [input_value] is [this.input.value] and [messageDisplay] is
    [this.messageDisplay.textContent]; the label, the input and the Go button
    that [init] appends to the container never change afterwards. *)

Record UIHandler := mkUIHandler {
  input_value : string;
  messageDisplay : string
}.

Definition new_UIHandler : UIHandler := mkUIHandler "" "".

Definition displayStatus (msg : string) (u : UIHandler) : UIHandler :=
  mkUIHandler (input_value u) msg.

(** *** class GameEngine

    A button object is referred to by its index in [this.buttons].
    [gameArea] lists the children of the game area, each child being the
    element of the button with that id. *)

Record GameEngine := mkGameEngine {
  buttons : list MemoryButton;
  gameArea : list string;
  ui : UIHandler;
  expectedOrder : Z;
  isScrambling : bool
}.

Definition new_GameEngine : GameEngine :=
  mkGameEngine [] [] new_UIHandler 1 false.

Definition set_buttons (v : list MemoryButton) (g : GameEngine) : GameEngine :=
  mkGameEngine v (gameArea g) (ui g) (expectedOrder g) (isScrambling g).

Definition set_gameArea (v : list string) (g : GameEngine) : GameEngine :=
  mkGameEngine (buttons g) v (ui g) (expectedOrder g) (isScrambling g).

Definition set_ui (v : UIHandler) (g : GameEngine) : GameEngine :=
  mkGameEngine (buttons g) (gameArea g) v (expectedOrder g) (isScrambling g).

Definition set_expectedOrder (v : Z) (g : GameEngine) : GameEngine :=
  mkGameEngine (buttons g) (gameArea g) (ui g) v (isScrambling g).

Definition set_isScrambling (v : bool) (g : GameEngine) : GameEngine :=
  mkGameEngine (buttons g) (gameArea g) (ui g) (expectedOrder g) v.

(** A method call on the button object at index [i]. *)
Definition on_button (i : nat) (f : MemoryButton -> MemoryButton)
    (g : GameEngine) : GameEngine :=
  set_buttons (alter f i (buttons g)) g.

(** [this.buttons.forEach(btn => ...)] with a body that touches [btn] only. *)
Definition forEach_button (f : MemoryButton -> MemoryButton) (g : GameEngine)
  : GameEngine :=
  set_buttons (map f (buttons g)) g.

Definition ui_displayStatus (msg : string) (g : GameEngine) : GameEngine :=
  set_ui (displayStatus msg (ui g)) g.

(** ** The browser the engine runs in *)

Record Window := mkWindow {
  innerWidth : Z;
  innerHeight : Z
}.

(** The closures handed to [setTimeout]: both call
    [this.scrambleSequence(n, remaining)]. *)
Inductive Callback :=
| ScrambleSequence (n remaining : Z).

Record Timer := mkTimer {
  due : Z;               (* milliseconds *)
  callback : Callback
}.

Record Browser := mkBrowser {
  game : GameEngine;
  window : Window;
  timers : list Timer;   (* pending, in firing order *)
  now : Z;
  randomCalls : nat      (* calls of Math.random so far *)
}.

Definition on_game (f : GameEngine -> GameEngine) (w : Browser) : Browser :=
  mkBrowser (f (game w)) (window w) (timers w) (now w) (randomCalls w).

Definition set_timers (v : list Timer) (w : Browser) : Browser :=
  mkBrowser (game w) (window w) v (now w) (randomCalls w).

Definition set_now (v : Z) (w : Browser) : Browser :=
  mkBrowser (game w) (window w) (timers w) v (randomCalls w).

Definition set_window (v : Window) (w : Browser) : Browser :=
  mkBrowser (game w) v (timers w) (now w) (randomCalls w).

(** A timer goes behind every pending timer that is due no later. *)
Fixpoint enqueue (t : Timer) (q : list Timer) : list Timer :=
  match q with
  | [] => [t]
  | t' :: q' => if due t <? due t' then t :: q else t' :: enqueue t q'
  end.

Definition setTimeout (cb : Callback) (delay : Z) (w : Browser) : Browser :=
  set_timers (enqueue (mkTimer (now w + Z.max 0 delay) cb) (timers w)) w.

(** A result of [Math.random()]: a Number in [0, 1). *)
Record Random01 := mkRandom01 {
  rval : Q;
  rval_range : (0 <= rval)%Q /\ (rval < 1)%Q
}.

(** The keys of the MESSAGES table of lang/messages/en/user.js. *)
Inductive MessageKey :=
| inputLabel
| goButton
| invalidInput
| excellentMemory
| wrongOrder.

(** ** Data for running the script on examples *)

(** A message table to run with. *)
Definition sample_MESSAGES (k : MessageKey) : string :=
  match k with
  | inputLabel => "How many buttons to create?"
  | goButton => "Go!"
  | invalidInput => "Please enter a number between 3 and 7."
  | excellentMemory => "Excellent memory!"
  | wrongOrder => "Wrong order!"
  end.

(** A source of random numbers: 0.0, 0.1, ..., 0.9, 0.0, ... *)
Definition sample_random (k : nat) : Random01.
Proof.
  refine (mkRandom01 (Z.of_nat (k mod 10) # 10) _).
  pose proof (Nat.mod_upper_bound k 10). unfold Qle, Qlt. simpl. lia.
Defined.

Definition sample_window : Window := mkWindow 1000 800.

(** Rounding that changes nothing. *)
Definition exact_rounding (q : Q) : Q := q.

(** Three pieces in an engine that has not scrambled them yet. *)
Definition sample_piece (i : Z) : MemoryButton :=
  on_element (set_style_position "relative")
    (new_MemoryButton ("btn-" ++ toString i) "#c0ffee" i).

Definition sample_round : GameEngine :=
  mkGameEngine (map sample_piece [1; 2; 3])
    ["btn-1"; "btn-2"; "btn-3"] new_UIHandler 1 false.

Definition sample_page : Browser :=
  mkBrowser sample_round sample_window [] 0 3.

Section Game.

(** The message table is imported from lang/messages/en/user.js. *)
Variable MESSAGES : MessageKey -> string.

(** Rounding of an exact product to a Number.  Rounding is monotone and
    leaves the integers the script works with as they are. *)
Variable fl : Q -> Q.
Hypothesis fl_monotone : forall a b : Q, (a <= b)%Q -> (fl a <= fl b)%Q.
Hypothesis fl_integer : forall z : Z, (fl (inject_Z z) == inject_Z z)%Q.

(** The [k]-th result of [Math.random()], counting from 0. *)
Variable random : nat -> Random01.

Definition Math_random (w : Browser) : Q * Browser :=
  (rval (random (randomCalls w)),
   mkBrowser (game w) (window w) (timers w) (now w) (S (randomCalls w))).

(** [Math.floor(Math.random() * k)] for an integer [k]. *)
Definition floor_scaled (r : Q) (k : Z) : Z :=
  Qfloor (fl (r * inject_Z k)).

(** *** GameEngine methods *)

Definition resetGame (g : GameEngine) : GameEngine :=
  set_isScrambling false
    (set_expectedOrder 1 (set_buttons [] (set_gameArea [] g))).

(** One pass of the body of the loop of [generateButtons]. *)
Definition generateButton (i : Z) (w : Browser) : Browser :=
  let '(r, w1) := Math_random w in
  let randomColor := "#" ++ toString16 (floor_scaled r 16777215) in
  let btn := new_MemoryButton ("btn-" ++ toString i) randomColor i in
  let slot := length (buttons (game w1)) in
  let w2 := on_game (fun g => set_buttons (buttons g ++ [btn]) g) w1 in
  let w3 := on_game (fun g => set_gameArea (gameArea g ++ [btn_id btn]) g) w2 in
  let w4 := on_game (on_button slot (on_element (set_style_position "relative"))) w3 in
  let w5 := on_game (on_button slot (on_element (set_style_display "inline-flex"))) w4 in
  on_game (on_button slot (on_element (set_style_marginRight "5px"))) w5.

(** [for (let i = 1; i <= n; i++)], entered at [i]; the fuel bounds the
    number of passes. *)
Fixpoint generateButtons_from (fuel : nat) (i n : Z) (w : Browser) : Browser :=
  match fuel with
  | O => w
  | S fuel' =>
      if i <=? n
      then generateButtons_from fuel' (i + 1) n (generateButton i w)
      else w
  end.

Definition generateButtons (n : Z) (w : Browser) : Browser :=
  generateButtons_from (Z.to_nat n) 1 n w.

Definition btnWidth : Z := 160.
Definition btnHeight : Z := 80.

Definition getRandomPosition (w : Browser) : (Z * Z) * Browser :=
  let maxX := innerWidth (window w) - btnWidth in
  let maxY := innerHeight (window w) - btnHeight in
  let '(rx, w1) := Math_random w in
  let randomX := Z.max 0 (floor_scaled rx maxX) in
  let '(ry, w2) := Math_random w1 in
  let randomY := Z.max 0 (floor_scaled ry maxY) in
  ((randomX, randomY), w2).

Definition prepareForUser (g : GameEngine) : GameEngine :=
  forEach_button
    (fun btn => enableClick HandleButtonClick (showNumber false btn))
    (set_isScrambling false g).

Definition revealAll (g : GameEngine) : GameEngine :=
  forEach_button (fun btn => disableClick (showNumber true btn)) g.

(** [handleButtonClick(btn)], [btn] being the button at index [i]. *)
Definition handleButtonClick (i : nat) (g : GameEngine) : GameEngine :=
  if isScrambling g then g
  else
    match buttons g !! i with
    | None => g
    | Some btn =>
        if order btn =? expectedOrder g then
          let g1 := on_button i (showNumber true) g in
          let g2 := on_button i disableClick g1 in
          let g3 :=
            if expectedOrder g2 =? Z.of_nat (length (buttons g2))
            then ui_displayStatus (MESSAGES excellentMemory) g2
            else g2 in
          set_expectedOrder (expectedOrder g3 + 1) g3
        else
          revealAll (ui_displayStatus (MESSAGES wrongOrder) g)
    end.

(** The body of the [forEach] of [scrambleSequence], for the button at
    index [i]. *)
Definition relocate (i : nat) (w : Browser) : Browser :=
  let w1 := on_game (on_button i (on_element (set_style_position "absolute"))) w in
  let '((x, y), w2) := getRandomPosition w1 in
  on_game (on_button i (setPosition x y)) w2.

Definition relocateAll (w : Browser) : Browser :=
  fold_left (fun w' i => relocate i w') (seq 0 (length (buttons (game w)))) w.

Definition scrambleSequence (n remaining : Z) (w : Browser) : Browser :=
  if remaining <=? 0 then on_game prepareForUser w
  else
    let w1 := on_game (set_isScrambling true) w in
    let w2 := relocateAll w1 in
    setTimeout (ScrambleSequence n (remaining - 1)) 2000 w2.

Definition startGame (n : Z) (w : Browser) : Browser :=
  let w1 := on_game resetGame w in
  let w2 := generateButtons n w1 in
  setTimeout (ScrambleSequence n n) (n * 1000) w2.

(** *** UIHandler: the [onclick] of the Go button *)

Definition goBtn_onclick (callback : Z -> Browser -> Browser) (w : Browser)
  : Browser :=
  let val := parseInt (input_value (ui (game w))) in
  if num_ge val 3 && num_le val 7 then
    let w1 := on_game (ui_displayStatus "") w in
    match val with
    | Int n => callback n w1
    | NaN => w1          (* NaN fails both comparisons *)
    end
  else on_game (ui_displayStatus (MESSAGES invalidInput)) w.

(** *** The event loop *)

Definition runCallback (cb : Callback) (w : Browser) : Browser :=
  match cb with
  | ScrambleSequence n remaining => scrambleSequence n remaining w
  end.

(** The first pending timer fires, no earlier than it is due. *)
Definition fireTimer (w : Browser) : Browser :=
  match timers w with
  | [] => w
  | t :: rest =>
      runCallback (callback t) (set_now (Z.max (now w) (due t)) (set_timers rest w))
  end.

(** A pointer click on the element of the button at index [i]. *)
Definition click (i : nat) (g : GameEngine) : GameEngine :=
  match buttons g !! i with
  | Some btn =>
      match onclick (element btn) with
      | Some HandleButtonClick => handleButtonClick i g
      | None => g
      end
  | None => g
  end.

(** Clicks on the pieces at the indices [js], one after the other. *)
Definition clicks (js : list nat) (g : GameEngine) : GameEngine :=
  fold_left (fun g' j => click j g') js g.

Inductive Event :=
| TypeInput (text : string)     (* the user edits the number input *)
| ClickGo
| ClickPiece (i : nat)
| TimerFires
| TimePasses (ms : Z)
| Resize (width height : Z).

Definition step (w : Browser) (e : Event) : Browser :=
  match e with
  | TypeInput text =>
      on_game (fun g => set_ui (mkUIHandler (sanitizeNumberInput text)
                                  (messageDisplay (ui g))) g) w
  | ClickGo => goBtn_onclick startGame w
  | ClickPiece i => on_game (click i) w
  | TimerFires => fireTimer w
  | TimePasses ms => set_now (now w + Z.max 0 ms) w
  | Resize width height => set_window (mkWindow width height) w
  end.

Definition run (evs : list Event) (w : Browser) : Browser :=
  fold_left step evs w.

(** The page once the script has run [new GameEngine()]. *)
Definition loaded (win : Window) : Browser :=
  mkBrowser new_GameEngine win [] 0 0.

(** What holds of a round of [n] pieces from the moment it is handed to
    the player, whatever is clicked: the pieces are numbered 1..n and
    every piece below the expected order has lost its click handler. *)
Definition clicked_are_locked (n : nat) (g : GameEngine) : Prop :=
  isScrambling g = false /\
  map order (buttons g) = map Z.of_nat (seq 1 n) /\
  forall j b, buttons g !! j = Some b ->
    order b < expectedOrder g -> onclick (element b) = None.

(** What [scrambleSequence] does before it schedules its continuation,
    when [remaining] is positive. *)
Definition scramblePass (w : Browser) : Browser :=
  relocateAll (on_game (set_isScrambling true) w).

(** The page without its timer queue and clock. *)
Definition page (w : Browser) : GameEngine * Window * nat :=
  (game w, window w, randomCalls w).

(** The position [getRandomPosition] returns in a window [win] when
    [Math.random] has been called [c] times before. *)
Definition positionAt (win : Window) (c : nat) : Z * Z :=
  fst (getRandomPosition (mkBrowser new_GameEngine win [] 0 c)).

(** What the body of the [forEach] of [scrambleSequence] does to one
    button, given the position drawn for it. *)
Definition placed (pos : Z * Z) (b : MemoryButton) : MemoryButton :=
  setPosition (fst pos) (snd pos)
    (on_element (set_style_position "absolute") b).

(** What every reachable engine satisfies: the pieces are numbered from 1
    in creation order, and the expected order lies between 1 and one more
    than their number. *)
Definition round_invariant (g : GameEngine) : Prop :=
  map order (buttons g) = map Z.of_nat (seq 1 (length (buttons g))) /\
  1 <= expectedOrder g <= Z.of_nat (length (buttons g)) + 1.

(** An event that starts a new round: a Go click the handler accepts. *)
Definition startsRound (w : Browser) (e : Event) : bool :=
  match e with
  | ClickGo =>
      let val := parseInt (input_value (ui (game w))) in
      num_ge val 3 && num_le val 7
  | _ => false
  end.

(** A run in which rounds do not overlap: Go is accepted only while no
    countdown is pending. *)
Fixpoint rounds_apart (evs : list Event) (w : Browser) : Prop :=
  match evs with
  | [] => True
  | e :: evs' =>
      (startsRound w e = true -> timers w = []) /\
      rounds_apart evs' (step w e)
  end.

Definition unarmed (g : GameEngine) : Prop :=
  Forall (fun b => onclick (element b) = None) (buttons g).

(** The two phases of such a run: either no timer is pending and the round,
    if any, is with the player; or one countdown callback is pending, no
    piece accepts clicks and the expected order is still 1. *)
Definition phase (n : nat) (w : Browser) : Prop :=
  (timers w = [] /\ clicked_are_locked n (game w)) \/
  (map order (buttons (game w)) = map Z.of_nat (seq 1 n) /\
   (exists d m r, timers w = [mkTimer d (ScrambleSequence m r)]) /\
   expectedOrder (game w) = 1 /\
   unarmed (game w)).

(** The piece [generateButtons] creates for [i] when [Math.random] has
    been called [c] times before: its object and its element as the loop
    body leaves them. *)
Definition generatedPiece (c : nat) (i : Z) : MemoryButton :=
  let shade := "#" ++ toString16 (floor_scaled (rval (random c)) 16777215) in
  on_element (set_style_marginRight "5px")
    (on_element (set_style_display "inline-flex")
       (on_element (set_style_position "relative")
          (new_MemoryButton ("btn-" ++ toString i) shade i))).

(** The pieces of a round of [n] started when [Math.random] has been
    called [c] times before. *)
Definition generatedPieces (c : nat) (n : Z) : list MemoryButton :=
  map (fun k => generatedPiece (c + k) (1 + Z.of_nat k)) (seq 0 (Z.to_nat n)).

(** A piece as it is while its round is memorized and scrambled: its number
    is shown and it has no click handler. *)
Definition labelled (b : MemoryButton) : Prop :=
  textContent (element b) = toString (order b) /\ onclick (element b) = None.

(** The number of firings a pending callback still stands for: itself and
    the continuations it will schedule. *)
Definition firingsLeft (t : Timer) : nat :=
  match callback t with
  | ScrambleSequence _ remaining => S (Z.to_nat remaining)
  end.

Definition pendingFirings (q : list Timer) : nat :=
  list_sum (map firingsLeft q).

(** A round of [n] pieces being played: the pieces below the expected order
    have been clicked in their turn and show their numbers, the others are
    hidden and clickable; the status line holds the win message once the
    expected order has passed the last piece, and [status0] until then. *)
Definition playing (n : nat) (status0 : string) (g : GameEngine) : Prop :=
  isScrambling g = false /\
  map order (buttons g) = map Z.of_nat (seq 1 n) /\
  1 <= expectedOrder g <= Z.of_nat n + 1 /\
  (forall j b, buttons g !! j = Some b ->
     if order b <? expectedOrder g
     then textContent (element b) = toString (order b) /\
          onclick (element b) = None
     else textContent (element b) = "" /\
          onclick (element b) = Some HandleButtonClick) /\
  messageDisplay (ui g)
  = (if (1 <? expectedOrder g) && (expectedOrder g =? Z.of_nat n + 1)
     then MESSAGES excellentMemory else status0).

(** A round of [n] pieces lost: every number is shown, no piece is
    clickable, the status line holds the wrong-order message, and the
    expected order is that of the piece that should have been clicked. *)
Definition lost (n : nat) (g : GameEngine) : Prop :=
  isScrambling g = false /\
  map order (buttons g) = map Z.of_nat (seq 1 n) /\
  1 <= expectedOrder g <= Z.of_nat n /\
  (forall j b, buttons g !! j = Some b ->
     textContent (element b) = toString (order b) /\
     onclick (element b) = None) /\
  messageDisplay (ui g) = MESSAGES wrongOrder.

(** What identifies a piece: id, color, order, and the class and background
    color of its element. *)
Definition pieceIdentity (b : MemoryButton)
  : string * string * Z * string * option CssColor :=
  (btn_id b, color b, order b, className (element b),
   style_backgroundColor (element b)).

(** The pieces and the game area as every reachable engine has them: the
    game area holds the elements of the pieces, in their order, and the
    piece at index [i] is the one created [i+1]-th. *)
Definition wellFormedPieces (g : GameEngine) : Prop :=
  gameArea g = map btn_id (buttons g) /\
  forall i b, buttons g !! i = Some b ->
    btn_id b = "btn-" ++ toString (Z.of_nat i + 1) /\
    order b = Z.of_nat i + 1 /\
    className (element b) = "memory-button".

(** The engine of a round of [n] just generated, [Math.random] having been
    called [c] times before: [n] pieces, the game area holding their
    elements, the expected order 1 and the flag clear.  The piece created
    [i+1]-th has the id [btn-(i+1)], the order [i+1] and the colour string
    made from the random number [c + i]; its element has the class
    [memory-button], shows the number, stands in the row layout with no
    coordinates, and has no click handler. *)
Definition freshRound (c : nat) (n : Z) (g : GameEngine) : Prop :=
  length (buttons g) = Z.to_nat n /\
  gameArea g = map btn_id (buttons g) /\
  expectedOrder g = 1 /\
  isScrambling g = false /\
  forall i b, buttons g !! i = Some b ->
    btn_id b = "btn-" ++ toString (Z.of_nat i + 1) /\
    order b = Z.of_nat i + 1 /\
    color b
    = "#" ++ toString16 (floor_scaled (rval (random (c + i))) 16777215) /\
    className (element b) = "memory-button" /\
    textContent (element b) = toString (Z.of_nat i + 1) /\
    style_position (element b) = "relative" /\
    style_display (element b) = "inline-flex" /\
    style_marginRight (element b) = "5px" /\
    style_left (element b) = "" /\
    style_top (element b) = "" /\
    onclick (element b) = None.

(** [rounds_apart], decided. *)
Fixpoint rounds_apart_check (evs : list Event) (w : Browser) : bool :=
  match evs with
  | [] => true
  | e :: evs' =>
      (negb (startsRound w e) || match timers w with [] => true | _ => false end)
      && rounds_apart_check evs' (step w e)
  end.

(** ** Properties *)

(** *** Records and their setters *)

Lemma on_game_id (f : GameEngine -> GameEngine) (w : Browser) :
  f (game w) = game w -> on_game f w = w.
Proof. intros H. destruct w as [g win ts t k]. unfold on_game. simpl in *. now rewrite H. Qed.

Lemma forEach_button_lookup (f : MemoryButton -> MemoryButton)
    (g : GameEngine) (j : nat) :
  buttons (forEach_button f g) !! j = f <$> buttons g !! j.
Proof. unfold forEach_button. simpl. apply list_lookup_fmap. Qed.

Lemma map_order_alter (f : MemoryButton -> MemoryButton) (i : nat)
    (l : list MemoryButton) :
  (forall b, order (f b) = order b) ->
  map order (alter f i l) = map order l.
Proof.
  intros Hf. revert i. induction l as [|b l IH]; intros [|i]; simpl; try reflexivity.
  - now rewrite Hf.
  - f_equal. apply IH.
Qed.

Lemma map_order_map (f : MemoryButton -> MemoryButton)
    (l : list MemoryButton) :
  (forall b, order (f b) = order b) ->
  map order (map f l) = map order l.
Proof.
  intros Hf. induction l as [|b l IH]; simpl; [reflexivity|].
  now rewrite Hf, IH.
Qed.

Lemma click_disabled (g : GameEngine) (i : nat) (btn : MemoryButton) :
  buttons g !! i = Some btn ->
  onclick (element btn) = None ->
  click i g = g.
Proof. intros Hb Hc. unfold click. now rewrite Hb, Hc. Qed.

Lemma click_armed (g : GameEngine) (i : nat) (btn : MemoryButton) :
  buttons g !! i = Some btn ->
  onclick (element btn) = Some HandleButtonClick ->
  click i g = handleButtonClick i g.
Proof. intros Hb Hc. unfold click. now rewrite Hb, Hc. Qed.

Lemma click_all_disabled (g : GameEngine) :
  (forall j b, buttons g !! j = Some b -> onclick (element b) = None) ->
  forall i, click i g = g.
Proof.
  intros Hall i. unfold click.
  destruct (buttons g !! i) as [b|] eqn:Hb; [|reflexivity].
  now rewrite (Hall i b Hb).
Qed.

Lemma clicks_all_disabled (g : GameEngine) :
  (forall j b, buttons g !! j = Some b -> onclick (element b) = None) ->
  forall js, clicks js g = g.
Proof.
  intros Hall js. induction js as [|j js IH]; simpl; [reflexivity|].
  unfold clicks in *. simpl. now rewrite (click_all_disabled g Hall j).
Qed.

Lemma revealAll_lookup (g : GameEngine) (j : nat) (b : MemoryButton) :
  buttons (revealAll g) !! j = Some b ->
  textContent (element b) = toString (order b) /\
  onclick (element b) = None.
Proof.
  unfold revealAll. rewrite forEach_button_lookup.
  destruct (buttons g !! j) as [b0|]; simpl; [|discriminate].
  intros [= <-]. now split.
Qed.

(** *** Clicks while the pieces move *)

(** C9: a click delivered to [handleButtonClick] while [isScrambling] is
    true returns at once: the engine (expected order, every piece's label
    and click handler, the status line) is exactly what it was, and so is
    the whole page when the click arrives as an event. *)
Theorem click_while_scrambling_ignored (i : nat) (w : Browser) :
  isScrambling (game w) = true ->
  handleButtonClick i (game w) = game w /\
  click i (game w) = game w /\
  step w (ClickPiece i) = w.
Proof.
  intros Hs.
  assert (Hh : handleButtonClick i (game w) = game w).
  { unfold handleButtonClick. now rewrite Hs. }
  assert (Hc : click i (game w) = game w).
  { unfold click. destruct (buttons (game w) !! i) as [b|]; [|reflexivity].
    destruct (onclick (element b)) as [[]|]; [exact Hh | reflexivity]. }
  repeat split; try assumption.
  simpl. now apply on_game_id.
Qed.

(** *** A wrong click *)

Lemma handleButtonClick_wrong (i : nat) (g : GameEngine) (btn : MemoryButton) :
  isScrambling g = false ->
  buttons g !! i = Some btn ->
  order btn <> expectedOrder g ->
  handleButtonClick i g
  = revealAll (ui_displayStatus (MESSAGES wrongOrder) g).
Proof.
  intros Hs Hb Hne. unfold handleButtonClick. rewrite Hs, Hb.
  destruct (Z.eqb_spec (order btn) (expectedOrder g)); [contradiction|reflexivity].
Qed.


(** *** Rounds whose pieces are numbered 1..n *)

Lemma numbered_length (n : nat) (l : list MemoryButton) :
  map order l = map Z.of_nat (seq 1 n) -> length l = n.
Proof.
  intros H. apply (f_equal (@length Z)) in H.
  now rewrite !length_map, length_seq in H.
Qed.

Lemma numbered_lookup (n : nat) (l : list MemoryButton) (j : nat)
    (b : MemoryButton) :
  map order l = map Z.of_nat (seq 1 n) ->
  l !! j = Some b ->
  order b = Z.of_nat (S j) /\ (j < n)%nat.
Proof.
  intros H Hb.
  assert (Hj : (j < n)%nat).
  { rewrite <- (numbered_length n l H). now apply lookup_lt_Some with b. }
  split; [|exact Hj].
  assert (Hl : map order l !! j = Some (order b)).
  { change (map order l) with (order <$> l).
    rewrite list_lookup_fmap, Hb. reflexivity. }
  rewrite H in Hl.
  change (map Z.of_nat (seq 1 n)) with (Z.of_nat <$> seq 1 n) in Hl.
  rewrite list_lookup_fmap, lookup_seq_lt in Hl by exact Hj.
  simpl in Hl. now inversion Hl.
Qed.

Lemma clicks_snoc (js : list nat) (j : nat) (g : GameEngine) :
  clicks (js ++ [j]) g = click j (clicks js g).
Proof. unfold clicks. now rewrite fold_left_app. Qed.

(** The engine after a click that [handleButtonClick] accepts. *)
Lemma handleButtonClick_right (i : nat) (g : GameEngine) (btn : MemoryButton) :
  isScrambling g = false ->
  buttons g !! i = Some btn ->
  order btn = expectedOrder g ->
  handleButtonClick i g
  = let g2 := on_button i disableClick (on_button i (showNumber true) g) in
    set_expectedOrder (expectedOrder g + 1)
      (if expectedOrder g =? Z.of_nat (length (buttons g))
       then ui_displayStatus (MESSAGES excellentMemory) g2 else g2).
Proof.
  intros Hs Hb He. unfold handleButtonClick. rewrite Hs, Hb, He, Z.eqb_refl.
  cbv zeta. simpl expectedOrder. simpl buttons. rewrite !length_alter.
  destruct (expectedOrder g =? Z.of_nat (length (buttons g))); reflexivity.
Qed.

Lemma lookup_right_click (i j : nat) (l : list MemoryButton)
    (bi : MemoryButton) :
  l !! i = Some bi ->
  alter disableClick i (alter (showNumber true) i l) !! j
  = if decide (i = j) then Some (disableClick (showNumber true bi))
    else l !! j.
Proof.
  intros Hi. destruct (decide (i = j)) as [->|Hne].
  - rewrite !list_lookup_alter_eq, Hi. reflexivity.
  - now rewrite !list_lookup_alter_ne.
Qed.

(** C1: in a round of [n] pieces numbered 1..n that has just been handed
    to the player ([prepareForUser], expected order 1), clicking the
    pieces in the order 1, 2, ..., n goes as follows.  After the first
    [k] of these clicks the expected order is [k + 1], the [k] pieces
    clicked show their labels and have lost their click handlers, the
    others are still hidden and clickable, and the status line is what it
    was before the first click until the [n]-th click puts the win
    message there; the wrong-order message is written by none of them. *)
Theorem ordered_clicks_win (n : nat) (g0 : GameEngine) :
  map order (buttons g0) = map Z.of_nat (seq 1 n) ->
  expectedOrder g0 = 1 ->
  forall k, (k <= n)%nat ->
  let gk := clicks (seq 0 k) (prepareForUser g0) in
  expectedOrder gk = 1 + Z.of_nat k /\
  isScrambling gk = false /\
  map order (buttons gk) = map Z.of_nat (seq 1 n) /\
  (forall j b, buttons gk !! j = Some b ->
     order b = Z.of_nat (S j) /\
     if (j <? k)%nat
     then textContent (element b) = toString (order b) /\
          onclick (element b) = None
     else textContent (element b) = "" /\
          onclick (element b) = Some HandleButtonClick) /\
  messageDisplay (ui gk)
  = (if ((0 <? k) && (k =? n))%nat then MESSAGES excellentMemory
     else messageDisplay (ui g0)).
Proof.
  intros Hnum He1 k. induction k as [|k IH]; intros Hk gk.
  - subst gk. simpl clicks. repeat split.
    + simpl. lia.
    + unfold prepareForUser, forEach_button. simpl.
      rewrite map_order_map by reflexivity. exact Hnum.
    + unfold prepareForUser in H. rewrite forEach_button_lookup in H.
      simpl in H. destruct (buttons g0 !! j) as [b0|] eqn:Hb0; [|discriminate].
      injection H as <-. simpl.
      now destruct (numbered_lookup n _ j b0 Hnum Hb0).
    + unfold prepareForUser in H. rewrite forEach_button_lookup in H.
      simpl in H. destruct (buttons g0 !! j) as [b0|]; [|discriminate].
      now injection H as <-.
    + unfold prepareForUser in H. rewrite forEach_button_lookup in H.
      simpl in H. destruct (buttons g0 !! j) as [b0|]; [|discriminate].
      now injection H as <-.
  - assert (Hk' : (k <= n)%nat) by lia.
    specialize (IH Hk'). cbv zeta in IH.
    set (g := clicks (seq 0 k) (prepareForUser g0)) in *.
    destruct IH as (Hexp & Hscr & Hord & Hbtn & Hmsg).
    assert (Hgk : gk = click k g).
    { subst gk g. rewrite seq_S. simpl. apply clicks_snoc. }
    assert (Hlen : length (buttons g) = n) by (now apply numbered_length).
    destruct (lookup_lt_is_Some_2 (buttons g) k) as [bk Hbk]; [lia|].
    destruct (Hbtn k bk Hbk) as [Hok Hstate].
    rewrite Nat.ltb_irrefl in Hstate. destruct Hstate as [_ Harmed].
    rewrite (click_armed g k bk Hbk Harmed) in Hgk.
    rewrite (handleButtonClick_right k g bk Hscr Hbk) in Hgk by lia.
    cbv zeta in Hgk.
    assert (Hbuttons : buttons gk
              = alter disableClick k (alter (showNumber true) k (buttons g))).
    { rewrite Hgk. now destruct (expectedOrder g =? Z.of_nat (length (buttons g))). }
    repeat split.
    + rewrite Hgk. simpl. lia.
    + rewrite Hgk. now destruct (expectedOrder g =? Z.of_nat (length (buttons g))).
    + rewrite Hbuttons, !map_order_alter by reflexivity. exact Hord.
    + rewrite Hbuttons, (lookup_right_click k j _ bk Hbk) in H.
      destruct (decide (k = j)) as [<-|Hne].
      * injection H as <-. exact Hok.
      * now destruct (Hbtn j b H).
    + rewrite Hbuttons, (lookup_right_click k j _ bk Hbk) in H.
      destruct (decide (k = j)) as [<-|Hne].
      * injection H as <-. rewrite (proj2 (Nat.ltb_lt k (S k))) by lia.
        now split.
      * destruct (Hbtn j b H) as [_ Hst].
        destruct (Nat.ltb_spec j k), (Nat.ltb_spec j (S k)); try lia; exact Hst.
    + rewrite Hgk, Hexp, Hlen. simpl Nat.ltb. cbv [andb].
      destruct (Nat.eqb_spec (S k) n) as [Heq|Hneq].
      * rewrite (proj2 (Z.eqb_eq _ _)) by lia. reflexivity.
      * rewrite (proj2 (Z.eqb_neq _ _)) by lia. simpl. rewrite Hmsg.
        rewrite (proj2 (Nat.eqb_neq k n)) by lia.
        now rewrite Bool.andb_false_r.
Qed.

(** *** Pieces that no longer answer *)

Lemma prepareForUser_locked (n : nat) (g0 : GameEngine) :
  map order (buttons g0) = map Z.of_nat (seq 1 n) ->
  expectedOrder g0 = 1 ->
  clicked_are_locked n (prepareForUser g0).
Proof.
  intros Hnum He. repeat split.
  - unfold prepareForUser, forEach_button. simpl.
    now rewrite map_order_map.
  - intros j b Hb Hlt. exfalso.
    unfold prepareForUser in Hb. rewrite forEach_button_lookup in Hb.
    simpl in Hb, Hlt.
    destruct (buttons g0 !! j) as [b0|] eqn:Hb0; [|discriminate].
    injection Hb as <-. simpl in Hlt.
    destruct (numbered_lookup n _ j b0 Hnum Hb0). lia.
Qed.

Lemma click_preserves_locked (n i : nat) (g : GameEngine) :
  clicked_are_locked n g -> clicked_are_locked n (click i g).
Proof.
  intros (Hs & Hnum & Hlock). unfold click.
  destruct (buttons g !! i) as [bi|] eqn:Hbi; [|now repeat split].
  destruct (onclick (element bi)) as [[]|] eqn:Hc; [|now repeat split].
  destruct (Z.eq_dec (order bi) (expectedOrder g)) as [Heq|Hne].
  - rewrite (handleButtonClick_right i g bi Hs Hbi Heq). cbv zeta.
    assert (Hbuttons : forall u,
      buttons (set_expectedOrder u
        (if expectedOrder g =? Z.of_nat (length (buttons g))
         then ui_displayStatus (MESSAGES excellentMemory)
                (on_button i disableClick (on_button i (showNumber true) g))
         else on_button i disableClick (on_button i (showNumber true) g)))
      = alter disableClick i (alter (showNumber true) i (buttons g))).
    { intros u. now destruct (expectedOrder g =? Z.of_nat (length (buttons g))). }
    repeat split.
    + now destruct (expectedOrder g =? Z.of_nat (length (buttons g))).
    + now rewrite Hbuttons, !map_order_alter.
    + intros j b. rewrite Hbuttons, (lookup_right_click i j _ bi Hbi).
      simpl expectedOrder.
      destruct (decide (i = j)) as [<-|Hij].
      * now intros [= <-].
      * intros Hb Hlt. apply (Hlock j b Hb).
        destruct (numbered_lookup n _ j b Hnum Hb).
        destruct (numbered_lookup n _ i bi Hnum Hbi).
        assert (expectedOrder
                  (if expectedOrder g =? Z.of_nat (length (buttons g))
                   then ui_displayStatus (MESSAGES excellentMemory)
                          (on_button i disableClick (on_button i (showNumber true) g))
                   else on_button i disableClick (on_button i (showNumber true) g))
                = expectedOrder g)
          by (now destruct (expectedOrder g =? Z.of_nat (length (buttons g)))).
        lia.
  - rewrite (handleButtonClick_wrong i g bi Hs Hbi Hne). repeat split.
    + exact Hs.
    + unfold revealAll, forEach_button. simpl. now rewrite map_order_map.
    + intros j b Hb _. now apply (revealAll_lookup _ j b Hb).
Qed.

Lemma clicks_preserve_locked (n : nat) (js : list nat) (g : GameEngine) :
  clicked_are_locked n g -> clicked_are_locked n (clicks js g).
Proof.
  revert g. induction js as [|j js IH]; intros g Hg; [exact Hg|].
  unfold clicks. simpl. apply IH. now apply click_preserves_locked.
Qed.

Lemma click_keeps_disabled (i j : nat) (g : GameEngine) (b : MemoryButton) :
  buttons g !! i = Some b -> onclick (element b) = None ->
  exists b', buttons (click j g) !! i = Some b' /\
             onclick (element b') = None.
Proof.
  intros Hb Hoff. unfold click.
  destruct (buttons g !! j) as [bj|] eqn:Hbj; [|now exists b].
  destruct (onclick (element bj)) as [[]|] eqn:Hc; [|now exists b].
  unfold handleButtonClick.
  destruct (isScrambling g); [now exists b|]. rewrite Hbj.
  destruct (order bj =? expectedOrder g).
  - exists (if decide (j = i) then disableClick (showNumber true bj) else b).
    split.
    + transitivity (alter disableClick j
                     (alter (showNumber true) j (buttons g)) !! i).
      * now destruct (expectedOrder _ =? Z.of_nat (length (buttons _))).
      * rewrite (lookup_right_click j i _ bj Hbj).
        now destruct (decide (j = i)).
    + now destruct (decide (j = i)).
  - destruct (lookup_lt_is_Some_2
                (buttons (revealAll (ui_displayStatus (MESSAGES wrongOrder) g))) i)
      as [b' Hb'].
    { unfold revealAll, forEach_button. simpl. rewrite length_map.
      now apply lookup_lt_Some with b. }
    exists b'. split; [exact Hb'|]. now apply (revealAll_lookup _ i b' Hb').
Qed.

Lemma clicks_keep_disabled (js : list nat) (i : nat) (g : GameEngine)
    (b : MemoryButton) :
  buttons g !! i = Some b -> onclick (element b) = None ->
  exists b', buttons (clicks js g) !! i = Some b' /\
             onclick (element b') = None.
Proof.
  revert g b. induction js as [|j js IH]; intros g b Hb Hoff; [now exists b|].
  destruct (click_keeps_disabled i j g b Hb Hoff) as (b1 & Hb1 & Hoff1).
  exact (IH (click j g) b1 Hb1 Hoff1).
Qed.


(** *** The Go button *)

Lemma goBtn_onclick_accepts (callback : Z -> Browser -> Browser)
    (w : Browser) (n : Z) :
  parseInt (input_value (ui (game w))) = Int n ->
  3 <= n <= 7 ->
  goBtn_onclick callback w = callback n (on_game (ui_displayStatus "") w).
Proof.
  intros Hp Hn. unfold goBtn_onclick. rewrite Hp. simpl.
  rewrite (proj2 (Z.leb_le 3 n)), (proj2 (Z.leb_le n 7)) by lia.
  reflexivity.
Qed.

Lemma goBtn_onclick_rejects (callback : Z -> Browser -> Browser)
    (w : Browser) :
  (parseInt (input_value (ui (game w))) = NaN \/
   exists n, parseInt (input_value (ui (game w))) = Int n /\
             (n < 3 \/ 7 < n)) ->
  goBtn_onclick callback w
  = on_game (ui_displayStatus (MESSAGES invalidInput)) w.
Proof.
  intros [Hp | (n & Hp & Hn)]; unfold goBtn_onclick; rewrite Hp; simpl.
  - reflexivity.
  - destruct Hn.
    + rewrite (proj2 (Z.leb_gt 3 n)) by lia. reflexivity.
    + rewrite (proj2 (Z.leb_gt n 7)) by lia. now rewrite Bool.andb_false_r.
Qed.

(** C3: on every activation of the Go button the input value is parsed
    with [parseInt].  If the result is NaN or an integer outside 3..7, the
    status line gets the invalid-input message and that is all that
    happens: the outcome is the same whatever [callback] is, so it was not
    called.  Text that is not a number reads back from the number input as
    the empty string, which parses to NaN, so it is rejected this way.
    Otherwise the status line is cleared and the outcome is [callback n]
    applied once to the page with the cleared status, [n] being the parsed
    integer. *)
Theorem go_validates_round_size (callback : Z -> Browser -> Browser)
    (w : Browser) :
  let val := parseInt (input_value (ui (game w))) in
  let rejected :=
    on_game (ui_displayStatus (MESSAGES invalidInput)) w in
  let cleared := on_game (ui_displayStatus "") w in
  messageDisplay (ui (game rejected)) = MESSAGES invalidInput /\
  messageDisplay (ui (game cleared)) = "" /\
  (val = NaN -> goBtn_onclick callback w = rejected) /\
  (forall n, val = Int n -> n < 3 \/ 7 < n ->
     goBtn_onclick callback w = rejected) /\
  (forall n, val = Int n -> 3 <= n <= 7 ->
     goBtn_onclick callback w = callback n cleared) /\
  (forall text, isValidFloatingPointNumber text = false ->
     let w' := step w (TypeInput text) in
     goBtn_onclick callback w'
     = on_game (ui_displayStatus (MESSAGES invalidInput)) w').
Proof.
  intros val rejected cleared. repeat split.
  - intros Hp. apply goBtn_onclick_rejects. now left.
  - intros n Hp Hn. apply goBtn_onclick_rejects. right. now exists n.
  - intros n Hp Hn. now apply goBtn_onclick_accepts.
  - intros text Ht w'. apply goBtn_onclick_rejects. left.
    subst w'. simpl. unfold sanitizeNumberInput. rewrite Ht. reflexivity.
Qed.

(** *** Generating the pieces *)

Lemma generateButton_orders (i : Z) (w : Browser) :
  map order (buttons (game (generateButton i w)))
  = (map order (buttons (game w)) ++ [i])%list.
Proof.
  unfold generateButton, Math_random. simpl.
  rewrite !map_order_alter by reflexivity.
  now rewrite map_app.
Qed.

Lemma generateButton_frame (i : Z) (w : Browser) :
  let w' := generateButton i w in
  expectedOrder (game w') = expectedOrder (game w) /\
  isScrambling (game w') = isScrambling (game w) /\
  ui (game w') = ui (game w) /\
  window w' = window w /\ timers w' = timers w /\ now w' = now w /\
  randomCalls w' = S (randomCalls w).
Proof. now repeat split. Qed.

Lemma generateButtons_from_frame (fuel : nat) (i n : Z) (w : Browser) :
  let w' := generateButtons_from fuel i n w in
  expectedOrder (game w') = expectedOrder (game w) /\
  isScrambling (game w') = isScrambling (game w) /\
  ui (game w') = ui (game w) /\
  window w' = window w /\ timers w' = timers w /\ now w' = now w.
Proof.
  revert i w. induction fuel as [|fuel IH]; intros i w; simpl.
  - now repeat split.
  - destruct (i <=? n); [|now repeat split].
    exact (IH (i + 1) (generateButton i w)).
Qed.

(** The loop makes one piece per value of [i] from its entry value up to
    [n], as far as the fuel goes. *)
Lemma generateButtons_from_orders (fuel : nat) (i n : Z) (w : Browser) :
  map order (buttons (game (generateButtons_from fuel i n w)))
  = (map order (buttons (game w))
     ++ map (fun k => i + Z.of_nat k)
          (seq 0 (Nat.min fuel (Z.to_nat (n + 1 - i)))))%list.
Proof.
  revert i w. induction fuel as [|fuel IH]; intros i w; simpl.
  - now rewrite app_nil_r.
  - destruct (Z.leb_spec i n) as [Hle|Hgt].
    + rewrite IH, generateButton_orders, <- app_assoc. f_equal.
      replace (Z.to_nat (n + 1 - i)) with (S (Z.to_nat (n + 1 - (i + 1))))
        by lia.
      simpl. f_equal; [lia|].
      rewrite <- seq_shift, map_map. apply map_ext. intros k. lia.
    + replace (Z.to_nat (n + 1 - i)) with 0%nat by lia.
      simpl. now rewrite app_nil_r.
Qed.

Lemma generateButtons_orders (n : Z) (w : Browser) :
  buttons (game w) = [] ->
  map order (buttons (game (generateButtons n w)))
  = map Z.of_nat (seq 1 (Z.to_nat n)).
Proof.
  intros Hnil. unfold generateButtons.
  rewrite generateButtons_from_orders, Hnil. simpl.
  replace (Z.to_nat (n + 1 - 1)) with (Z.to_nat n) by lia.
  rewrite Nat.min_id, <- seq_shift, map_map.
  apply map_ext. intros k. lia.
Qed.

Lemma startGame_orders (n : Z) (w : Browser) :
  map order (buttons (game (startGame n w)))
  = map Z.of_nat (seq 1 (Z.to_nat n)).
Proof. unfold startGame. simpl. now apply generateButtons_orders. Qed.

Lemma startGame_round_state (n : Z) (w : Browser) :
  expectedOrder (game (startGame n w)) = 1 /\
  isScrambling (game (startGame n w)) = false /\
  ui (game (startGame n w)) = ui (game w) /\
  window (startGame n w) = window w.
Proof.
  unfold startGame, generateButtons. simpl.
  destruct (generateButtons_from_frame (Z.to_nat n) 1 n (on_game resetGame w))
    as (E1 & E2 & E3 & E4 & _).
  simpl in E1, E2, E3, E4. now rewrite E1, E2, E3, E4.
Qed.

(** C5: for [n] from 3 to 7, [startGame n] leaves exactly [n] pieces in
    [this.buttons]; the piece created [i]-th has order [i], so the orders
    are 1, 2, ..., n in creation order, each value of 1..n once. *)
Theorem startGame_numbers_pieces (n : Z) (w : Browser) :
  3 <= n <= 7 ->
  let pieces := buttons (game (startGame n w)) in
  Z.of_nat (length pieces) = n /\
  map order pieces = map Z.of_nat (seq 1 (Z.to_nat n)) /\
  (forall i b, pieces !! i = Some b -> order b = Z.of_nat i + 1) /\
  List.NoDup (map order pieces) /\
  (forall k, In k (map order pieces) <-> 1 <= k <= n).
Proof.
  intros Hn. cbv zeta.
  pose proof (startGame_orders n w) as Hord.
  split; [|split; [|split; [|split]]].
  - rewrite (numbered_length _ _ Hord). lia.
  - exact Hord.
  - intros i b Hb. destruct (numbered_lookup _ _ i b Hord Hb). lia.
  - rewrite Hord. apply Finite.Injective_map_NoDup.
    + intros x y. lia.
    + apply seq_NoDup.
  - intros k. rewrite Hord, in_map_iff. split.
    + intros (j & <- & Hj). apply in_seq in Hj. lia.
    + intros Hk. exists (Z.to_nat k). split; [lia|]. apply in_seq. lia.
Qed.

(** *** Random positions *)

Lemma fl_integer_le (z : Z) : (inject_Z z <= fl (inject_Z z))%Q.
Proof. apply Qle_lteq. right. symmetry. apply fl_integer. Qed.

Lemma fl_integer_ge (z : Z) : (fl (inject_Z z) <= inject_Z z)%Q.
Proof. apply Qle_lteq. right. apply fl_integer. Qed.

Lemma floor_scaled_upper (r : Random01) (k : Z) :
  0 <= k -> 0 <= floor_scaled (rval r) k <= k.
Proof.
  intros Hk. destruct (rval_range r) as [H0 H1]. unfold floor_scaled.
  assert (Hk' : (0 <= inject_Z k)%Q) by (unfold Qle; simpl; lia).
  split.
  - rewrite <- (Qfloor_Z 0). apply Qfloor_resp_le.
    apply Qle_trans with (fl (inject_Z 0)); [apply fl_integer_le|].
    apply fl_monotone. change (inject_Z 0) with 0%Q.
    now apply Qmult_le_0_compat.
  - rewrite <- (Qfloor_Z k) at 2. apply Qfloor_resp_le.
    apply Qle_trans with (fl (inject_Z k)); [|apply fl_integer_ge].
    apply fl_monotone.
    apply Qle_trans with (1 * inject_Z k)%Q.
    + apply Qmult_le_compat_r; [now apply Qlt_le_weak | exact Hk'].
    + rewrite Qmult_1_l. apply Qle_refl.
Qed.

Lemma floor_scaled_negative (r : Random01) (k : Z) :
  k <= 0 -> floor_scaled (rval r) k <= 0.
Proof.
  intros Hk. destruct (rval_range r) as [H0 _]. unfold floor_scaled.
  rewrite <- (Qfloor_Z 0). apply Qfloor_resp_le.
  apply Qle_trans with (fl (inject_Z 0)); [|apply fl_integer_ge].
  apply fl_monotone. change (inject_Z 0) with 0%Q.
  destruct (rval r) as [p q]. unfold Qle in *. simpl in *. nia.
Qed.

(** C8: whatever the window size and the random numbers drawn,
    [getRandomPosition] returns integers [x] and [y] with
    [0 <= x <= innerWidth - 160] when the window is at least 160 wide and
    [0 <= y <= innerHeight - 80] when it is at least 80 high; a coordinate
    whose window dimension is smaller than the piece is exactly 0. *)
Theorem getRandomPosition_in_viewport (w : Browser) :
  let x := fst (fst (getRandomPosition w)) in
  let y := snd (fst (getRandomPosition w)) in
  (160 <= innerWidth (window w) -> 0 <= x <= innerWidth (window w) - 160) /\
  (80 <= innerHeight (window w) -> 0 <= y <= innerHeight (window w) - 80) /\
  (innerWidth (window w) < 160 -> x = 0) /\
  (innerHeight (window w) < 80 -> y = 0).
Proof.
  unfold getRandomPosition, Math_random, btnWidth, btnHeight. simpl.
  split; [|split; [|split]]; intros H.
  - pose proof (floor_scaled_upper (random (randomCalls w))
                  (innerWidth (window w) - 160)). lia.
  - pose proof (floor_scaled_upper (random (S (randomCalls w)))
                  (innerHeight (window w) - 80)). lia.
  - pose proof (floor_scaled_negative (random (randomCalls w))
                  (innerWidth (window w) - 160)). lia.
  - pose proof (floor_scaled_negative (random (S (randomCalls w)))
                  (innerHeight (window w) - 80)). lia.
Qed.

(** *** The scramble countdown *)

Lemma relocate_page (i : nat) (w w' : Browser) :
  page w = page w' -> page (relocate i w) = page (relocate i w').
Proof.
  destruct w as [g win ts t k], w' as [g' win' ts' t' k'].
  unfold page. simpl. intros [= -> -> ->]. reflexivity.
Qed.

Lemma relocate_frame (i : nat) (w : Browser) :
  let w' := relocate i w in
  map order (buttons (game w')) = map order (buttons (game w)) /\
  length (buttons (game w')) = length (buttons (game w)) /\
  expectedOrder (game w') = expectedOrder (game w) /\
  isScrambling (game w') = isScrambling (game w) /\
  ui (game w') = ui (game w) /\
  window w' = window w /\ timers w' = timers w /\ now w' = now w /\
  randomCalls w' = S (S (randomCalls w)).
Proof.
  unfold relocate, getRandomPosition, Math_random. simpl.
  rewrite !map_order_alter by reflexivity. rewrite !length_alter.
  now repeat split.
Qed.

Lemma relocate_each_page (l : list nat) (w w' : Browser) :
  page w = page w' ->
  page (fold_left (fun v i => relocate i v) l w)
  = page (fold_left (fun v i => relocate i v) l w').
Proof.
  revert w w'. induction l as [|i l IH]; intros w w' H; simpl; [exact H|].
  apply IH. now apply relocate_page.
Qed.

Lemma relocate_each_frame (l : list nat) (w : Browser) :
  let w' := fold_left (fun v i => relocate i v) l w in
  map order (buttons (game w')) = map order (buttons (game w)) /\
  length (buttons (game w')) = length (buttons (game w)) /\
  expectedOrder (game w') = expectedOrder (game w) /\
  isScrambling (game w') = isScrambling (game w) /\
  ui (game w') = ui (game w) /\
  window w' = window w /\ timers w' = timers w /\ now w' = now w /\
  randomCalls w' = (randomCalls w + 2 * length l)%nat.
Proof.
  revert w. induction l as [|i l IH]; intros w; simpl.
  - repeat split. lia.
  - destruct (IH (relocate i w)) as (E1 & E2 & E3 & E4 & E5 & E6 & E7 & E8 & E9).
    destruct (relocate_frame i w) as (F1 & F2 & F3 & F4 & F5 & F6 & F7 & F8 & F9).
    cbv zeta in *.
    rewrite E1, E2, E3, E4, E5, E6, E7, E8, E9, F1, F2, F3, F4, F5, F6, F7, F8, F9.
    repeat split. lia.
Qed.

Lemma scramblePass_page (w w' : Browser) :
  page w = page w' -> page (scramblePass w) = page (scramblePass w').
Proof.
  intros H. unfold scramblePass, relocateAll.
  assert (H' : page (on_game (set_isScrambling true) w)
               = page (on_game (set_isScrambling true) w')).
  { unfold page in *. simpl. now injection H as -> -> ->. }
  replace (length (buttons (game (on_game (set_isScrambling true) w'))))
    with (length (buttons (game (on_game (set_isScrambling true) w)))).
  - now apply relocate_each_page.
  - unfold page in H. simpl. now injection H as -> _ _.
Qed.

Lemma scramblePasses_page (k : nat) (w w' : Browser) :
  page w = page w' ->
  page (Nat.iter k scramblePass w) = page (Nat.iter k scramblePass w').
Proof.
  intros H. induction k as [|k IH]; simpl; [exact H|].
  now apply scramblePass_page.
Qed.

Lemma scramblePass_frame (w : Browser) :
  let w' := scramblePass w in
  map order (buttons (game w')) = map order (buttons (game w)) /\
  length (buttons (game w')) = length (buttons (game w)) /\
  expectedOrder (game w') = expectedOrder (game w) /\
  isScrambling (game w') = true /\
  ui (game w') = ui (game w) /\
  window w' = window w /\ timers w' = timers w /\ now w' = now w /\
  randomCalls w'
  = (randomCalls w + 2 * length (buttons (game w)))%nat.
Proof.
  unfold scramblePass, relocateAll.
  destruct (relocate_each_frame
              (seq 0 (length (buttons (game (on_game (set_isScrambling true) w)))))
              (on_game (set_isScrambling true) w))
    as (E1 & E2 & E3 & E4 & E5 & E6 & E7 & E8 & E9).
  cbv zeta in *. rewrite E1, E2, E3, E4, E5, E6, E7, E8, E9, length_seq.
  now repeat split.
Qed.

Lemma scramblePasses_frame (k : nat) (w : Browser) :
  let w' := Nat.iter k scramblePass w in
  map order (buttons (game w')) = map order (buttons (game w)) /\
  length (buttons (game w')) = length (buttons (game w)) /\
  expectedOrder (game w') = expectedOrder (game w) /\
  ui (game w') = ui (game w) /\
  randomCalls w'
  = (randomCalls w + k * (2 * length (buttons (game w))))%nat.
Proof.
  induction k as [|k IH]; simpl.
  - repeat split. lia.
  - destruct IH as (E1 & E2 & E3 & E4 & E5).
    destruct (scramblePass_frame (Nat.iter k scramblePass w))
      as (F1 & F2 & F3 & _ & F5 & _ & _ & _ & F9).
    cbv zeta in *. rewrite F1, F2, F3, F5, F9, E1, E2, E3, E4, E5.
    repeat split. lia.
Qed.

Lemma scrambleSequence_done (n remaining : Z) (w : Browser) :
  remaining <= 0 ->
  scrambleSequence n remaining w = on_game prepareForUser w.
Proof.
  intros H. unfold scrambleSequence.
  now rewrite (proj2 (Z.leb_le remaining 0)).
Qed.

Lemma scrambleSequence_more (n remaining : Z) (w : Browser) :
  0 < remaining ->
  scrambleSequence n remaining w
  = setTimeout (ScrambleSequence n (remaining - 1)) 2000 (scramblePass w).
Proof.
  intros H. unfold scrambleSequence.
  now rewrite (proj2 (Z.leb_gt remaining 0)).
Qed.

Lemma fireTimer_single (w : Browser) (t : Timer) :
  timers w = [t] ->
  fireTimer w
  = runCallback (callback t)
      (set_now (Z.max (now w) (due t)) (set_timers [] w)).
Proof. intros H. unfold fireTimer. now rewrite H. Qed.

(** While the countdown runs, each firing makes one more pass and leaves
    exactly one continuation pending, with the counter one lower. *)
Lemma countdown_running (n : Z) (r j : nat) (w : Browser) :
  timers w = [] -> (j < r)%nat ->
  let wj := Nat.iter j fireTimer (scrambleSequence n (Z.of_nat r) w) in
  page wj = page (Nat.iter (S j) scramblePass w) /\
  exists d, timers wj
            = [mkTimer d (ScrambleSequence n (Z.of_nat r - 1 - Z.of_nat j))].
Proof.
  intros Hq. induction j as [|j IH]; intros Hj.
  - simpl. rewrite scrambleSequence_more by lia.
    destruct (scramblePass_frame w) as (_ & _ & _ & _ & _ & _ & E7 & _).
    split; [reflexivity|].
    unfold setTimeout. simpl. cbv zeta in E7. rewrite E7, Hq. simpl.
    eexists. f_equal. f_equal. f_equal. lia.
  - destruct IH as (Hp & d & Ht); [lia|].
    set (wj := Nat.iter j fireTimer (scrambleSequence n (Z.of_nat r) w)) in *.
    change (Nat.iter (S j) fireTimer (scrambleSequence n (Z.of_nat r) w))
      with (fireTimer wj).
    cbv zeta. rewrite (fireTimer_single wj _ Ht). simpl runCallback.
    rewrite scrambleSequence_more by lia.
    set (v := set_now _ (set_timers [] wj)).
    assert (Hv : page v = page (Nat.iter (S j) scramblePass w)).
    { rewrite <- Hp. reflexivity. }
    destruct (scramblePass_frame v) as (_ & _ & _ & _ & _ & _ & E7 & _).
    split.
    + change (Nat.iter (S (S j)) scramblePass w)
        with (scramblePass (Nat.iter (S j) scramblePass w)).
      rewrite <- (scramblePass_page v _ Hv). reflexivity.
    + unfold setTimeout. simpl. cbv zeta in E7. rewrite E7. simpl.
      eexists. f_equal. f_equal. f_equal. lia.
Qed.

(** The firing that finds the counter at zero hands the round to the
    player and schedules nothing. *)
Lemma countdown_finished (n : Z) (r : nat) (w : Browser) :
  timers w = [] ->
  let wr := Nat.iter r fireTimer (scrambleSequence n (Z.of_nat r) w) in
  page wr = page (on_game prepareForUser (Nat.iter r scramblePass w)) /\
  timers wr = [].
Proof.
  intros Hq. destruct r as [|r].
  - simpl. rewrite scrambleSequence_done by lia. now split.
  - destruct (countdown_running n (S r) r w Hq) as (Hp & d & Ht); [lia|].
    set (wj := Nat.iter r fireTimer (scrambleSequence n (Z.of_nat (S r)) w)) in *.
    change (Nat.iter (S r) fireTimer (scrambleSequence n (Z.of_nat (S r)) w))
      with (fireTimer wj).
    cbv zeta. rewrite (fireTimer_single wj _ Ht). simpl runCallback.
    rewrite scrambleSequence_done by lia.
    split; [|reflexivity].
    unfold page in *. simpl. now injection Hp as -> -> ->.
Qed.

Lemma relocate_lookup (i j : nat) (w : Browser) :
  buttons (game (relocate i w)) !! j
  = if decide (i = j)
    then placed (positionAt (window w) (randomCalls w)) <$> buttons (game w) !! j
    else buttons (game w) !! j.
Proof.
  unfold relocate, getRandomPosition, Math_random. simpl.
  destruct (decide (i = j)) as [->|Hne].
  - rewrite !list_lookup_alter_eq. now destruct (buttons (game w) !! j).
  - now rewrite !list_lookup_alter_ne.
Qed.

(** A [forEach] pass over the indices [s .. s+m-1] places each of these
    buttons at the position drawn for it, two random numbers per button,
    and leaves the other buttons alone. *)
Lemma relocate_each_lookup (m s : nat) (w : Browser) (j : nat) :
  buttons (game (fold_left (fun v i => relocate i v) (seq s m) w)) !! j
  = if decide (s <= j < s + m)%nat
    then placed (positionAt (window w) (randomCalls w + 2 * (j - s)))
           <$> buttons (game w) !! j
    else buttons (game w) !! j.
Proof.
  revert s w. induction m as [|m IH]; intros s w; cbn [seq fold_left].
  - destruct (decide (s <= j < s + 0)%nat); [lia|reflexivity].
  - rewrite IH, relocate_lookup.
    destruct (relocate_frame s w) as (_ & _ & _ & _ & _ & E6 & _ & _ & E9).
    cbv zeta in E6, E9. rewrite E6, E9.
    destruct (decide (s = j)) as [->|Hne].
    + destruct (decide (S j <= j < S j + m)%nat); [lia|].
      destruct (decide (j <= j < j + S m)%nat); [|lia].
      now replace (randomCalls w + 2 * (j - j))%nat with (randomCalls w) by lia.
    + destruct (decide (S s <= j < S s + m)%nat),
               (decide (s <= j < s + S m)%nat); try lia; [|reflexivity].
      now replace (S (S (randomCalls w)) + 2 * (j - S s))%nat
        with (randomCalls w + 2 * (j - s))%nat by lia.
Qed.

(** One pass relocates every piece. *)
Lemma scramblePass_relocates_all (w : Browser) (j : nat) :
  buttons (game (scramblePass w)) !! j
  = placed (positionAt (window w) (randomCalls w + 2 * j))
      <$> buttons (game w) !! j.
Proof.
  unfold scramblePass, relocateAll. rewrite relocate_each_lookup.
  cbn -[Nat.mul Nat.sub Nat.add].
  destruct (decide (0 <= j < 0 + length (buttons (game w)))%nat) as [Hj|Hj].
  - now rewrite Nat.sub_0_r.
  - rewrite lookup_ge_None_2 by lia. reflexivity.
Qed.

Lemma prepareForUser_lookup (g : GameEngine) (j : nat) (b : MemoryButton) :
  buttons (prepareForUser g) !! j = Some b ->
  textContent (element b) = "" /\
  onclick (element b) = Some HandleButtonClick.
Proof.
  unfold prepareForUser. rewrite forEach_button_lookup. simpl.
  destruct (buttons g !! j) as [b0|]; simpl; [|discriminate].
  intros [= <-]. now split.
Qed.

(** C6: a call of [scrambleSequence] with a positive counter makes one
    pass and schedules one continuation with the counter one lower, 2000 ms
    on; a call with the counter at zero calls [prepareForUser] and
    schedules nothing.  A pass relocates every piece: it leaves as many
    pieces as it found and gives the piece at index [j] absolute
    positioning and, as [left] and [top], the pixel coordinates computed
    from the random numbers [2j] and [2j+1] of the pass and the window
    size, everything else about the piece staying as it was.
    So for [n] from 3 to 7, the countdown entered as
    [scrambleSequence(n, n)] with no other timer pending runs to its end.
    The entry call and each of the next [n - 1] firings make one pass that
    relocates every piece (two random numbers per piece), keep the
    scrambling flag set and leave one continuation pending whose counter
    is one lower than before; the [n]-th firing finds the counter at zero,
    calls [prepareForUser] - labels hidden, every piece clickable, flag
    cleared - and schedules nothing, so no timer is left.  In all, [n]
    passes happen before the round is handed to the player. *)
Theorem scramble_countdown (n : Z) (w : Browser) :
  3 <= n <= 7 ->
  timers w = [] ->
  let r := Z.to_nat n in
  let pieces := length (buttons (game w)) in
  (forall v remaining, 0 < remaining ->
     scrambleSequence n remaining v
     = setTimeout (ScrambleSequence n (remaining - 1)) 2000 (scramblePass v)) /\
  (forall v remaining, remaining <= 0 ->
     scrambleSequence n remaining v = on_game prepareForUser v) /\
  (forall v remaining,
     timers (scrambleSequence n remaining v)
     = if remaining <=? 0 then timers v
       else enqueue (mkTimer (now v + 2000)
                       (ScrambleSequence n (remaining - 1))) (timers v)) /\
  (forall v,
     length (buttons (game (scramblePass v))) = length (buttons (game v)) /\
     forall j b, buttons (game v) !! j = Some b ->
       let x := Z.max 0 (Qfloor (fl (rval (random (randomCalls v + 2 * j))
                                     * inject_Z (innerWidth (window v) - 160)))) in
       let y := Z.max 0 (Qfloor (fl (rval (random (S (randomCalls v + 2 * j)))
                                     * inject_Z (innerHeight (window v) - 80)))) in
       buttons (game (scramblePass v)) !! j
       = Some (mkMemoryButton (btn_id b) (color b) (order b)
                 (mkElement (className (element b)) (textContent (element b))
                    (style_backgroundColor (element b)) "absolute"
                    (style_display (element b))
                    (style_marginRight (element b))
                    (toString x ++ "px") (toString y ++ "px")
                    (onclick (element b))))) /\
  (forall j, (j < r)%nat ->
     let wj := Nat.iter j fireTimer (scrambleSequence n n w) in
     page wj = page (Nat.iter (S j) scramblePass w) /\
     isScrambling (game wj) = true /\
     randomCalls wj = (randomCalls w + S j * (2 * pieces))%nat /\
     exists d,
       timers wj = [mkTimer d (ScrambleSequence n (n - 1 - Z.of_nat j))]) /\
  let wr := Nat.iter r fireTimer (scrambleSequence n n w) in
  game wr = prepareForUser (game (Nat.iter r scramblePass w)) /\
  randomCalls wr = (randomCalls w + r * (2 * pieces))%nat /\
  isScrambling (game wr) = false /\
  (forall i b, buttons (game wr) !! i = Some b ->
     textContent (element b) = "" /\
     onclick (element b) = Some HandleButtonClick) /\
  map order (buttons (game wr)) = map order (buttons (game w)) /\
  expectedOrder (game wr) = expectedOrder (game w) /\
  timers wr = [] /\
  fireTimer wr = wr.
Proof.
  intros Hn Hq. cbv zeta.
  assert (Hr : n = Z.of_nat (Z.to_nat n)) by lia.
  revert Hr. generalize (Z.to_nat n) as r. intros r ->. clear Hn.
  split; [intros v remaining; apply scrambleSequence_more|].
  split; [intros v remaining; apply scrambleSequence_done|].
  split.
  { intros v remaining. destruct (Z.leb_spec remaining 0) as [H|H].
    - now rewrite scrambleSequence_done.
    - rewrite scrambleSequence_more by exact H.
      destruct (scramblePass_frame v) as (_ & _ & _ & _ & _ & _ & E7 & E8 & _).
      cbv zeta in E7, E8. unfold setTimeout. simpl timers.
      now rewrite E7, E8. }
  split.
  { intros v. split; [apply (scramblePass_frame v)|].
    intros j b Hb. cbv zeta.
    rewrite scramblePass_relocates_all, Hb. reflexivity. }
  split.
  - intros j Hj.
    destruct (countdown_running (Z.of_nat r) r j w Hq Hj) as (Hp & d & Ht).
    cbv zeta in Hp, Ht.
    destruct (scramblePasses_frame (S j) w) as (_ & _ & _ & _ & E5).
    destruct (scramblePass_frame (Nat.iter j scramblePass w))
      as (_ & _ & _ & F4 & _).
    cbv zeta in E5, F4. split; [exact Hp|].
    unfold page in Hp. injection Hp as Hg _ Hc.
    split; [now rewrite Hg|]. split; [now rewrite Hc|]. now exists d.
  - destruct (countdown_finished (Z.of_nat r) r w Hq) as (Hp & Ht).
    cbv zeta in Hp, Ht.
    set (wr := Nat.iter r fireTimer
                 (scrambleSequence (Z.of_nat r) (Z.of_nat r) w)) in *.
    unfold page in Hp. injection Hp as Hg _ Hc. simpl in Hg, Hc.
    destruct (scramblePasses_frame r w) as (E1 & _ & E3 & _ & E5).
    cbv zeta in E1, E3, E5.
    split; [exact Hg|]. split; [now rewrite Hc|]. rewrite Hg.
    split; [reflexivity|]. split; [apply prepareForUser_lookup|].
    split.
    { unfold prepareForUser, forEach_button. simpl.
      now rewrite map_order_map. }
    split; [exact E3|]. split; [exact Ht|].
    unfold fireTimer. now rewrite Ht.
Qed.

(** *** The expected order *)

Lemma click_expectedOrder (i : nat) (g : GameEngine) :
  round_invariant g ->
  round_invariant (click i g) /\
  length (buttons (click i g)) = length (buttons g) /\
  (expectedOrder (click i g) = expectedOrder g \/
   expectedOrder (click i g) = expectedOrder g + 1).
Proof.
  intros [Hnum Hexp]. unfold click.
  destruct (buttons g !! i) as [bi|] eqn:Hbi; [|now repeat split; auto].
  destruct (onclick (element bi)) as [[]|]; [|now repeat split; auto].
  destruct (isScrambling g) eqn:Hs.
  { unfold handleButtonClick. rewrite Hs. now repeat split; auto. }
  destruct (Z.eq_dec (order bi) (expectedOrder g)) as [Heq|Hne].
  - rewrite (handleButtonClick_right i g bi Hs Hbi Heq). cbv zeta.
    destruct (numbered_lookup _ _ i bi Hnum Hbi) as [Hoi Hi].
    unfold round_invariant.
    destruct (expectedOrder g =? Z.of_nat (length (buttons g)));
      simpl; rewrite !length_alter, !map_order_alter by reflexivity;
      (split; [split; [exact Hnum | lia] | split; [reflexivity | now right]]).
  - rewrite (handleButtonClick_wrong i g bi Hs Hbi Hne).
    unfold revealAll, forEach_button, round_invariant. simpl.
    rewrite length_map, map_order_map by reflexivity.
    now repeat split; auto.
Qed.

Lemma scrambleSequence_expectedOrder (n remaining : Z) (w : Browser) :
  let w' := scrambleSequence n remaining w in
  map order (buttons (game w')) = map order (buttons (game w)) /\
  length (buttons (game w')) = length (buttons (game w)) /\
  expectedOrder (game w') = expectedOrder (game w).
Proof.
  cbv zeta. destruct (Z.leb_spec remaining 0).
  - rewrite scrambleSequence_done by lia.
    unfold prepareForUser, forEach_button. simpl.
    rewrite length_map, map_order_map by reflexivity. now repeat split.
  - rewrite scrambleSequence_more by lia.
    destruct (scramblePass_frame w) as (E1 & E2 & E3 & _).
    simpl. now repeat split.
Qed.

Lemma fireTimer_expectedOrder (w : Browser) :
  map order (buttons (game (fireTimer w))) = map order (buttons (game w)) /\
  length (buttons (game (fireTimer w))) = length (buttons (game w)) /\
  expectedOrder (game (fireTimer w)) = expectedOrder (game w).
Proof.
  unfold fireTimer. destruct (timers w) as [|[d [n remaining]] rest].
  - now repeat split.
  - apply (scrambleSequence_expectedOrder n remaining
             (set_now (Z.max (now w) d) (set_timers rest w))).
Qed.

Lemma startGame_invariant (n : Z) (w : Browser) :
  round_invariant (game (startGame n w)).
Proof.
  pose proof (startGame_orders n w) as Hord.
  destruct (startGame_round_state n w) as (He & _).
  unfold round_invariant.
  rewrite (numbered_length _ _ Hord), He. split; [exact Hord | lia].
Qed.

(** Every event either starts a new round, with the expected order back
    at 1, or keeps the pieces and leaves the expected order as it is or
    one higher. *)
Lemma step_expectedOrder (w : Browser) (e : Event) :
  round_invariant (game w) ->
  round_invariant (game (step w e)) /\
  if startsRound w e then expectedOrder (game (step w e)) = 1
  else
    length (buttons (game (step w e))) = length (buttons (game w)) /\
    (expectedOrder (game (step w e)) = expectedOrder (game w) \/
     expectedOrder (game (step w e)) = expectedOrder (game w) + 1).
Proof.
  intros Hinv.
  assert (Hsame : forall g' : GameEngine,
            buttons g' = buttons (game w) ->
            expectedOrder g' = expectedOrder (game w) ->
            round_invariant g' /\
            length (buttons g') = length (buttons (game w)) /\
            (expectedOrder g' = expectedOrder (game w) \/
             expectedOrder g' = expectedOrder (game w) + 1)).
  { intros g' Hb He. unfold round_invariant. rewrite Hb, He.
    split; [exact Hinv|]. split; [reflexivity | now left]. }
  destruct e as [text| |i| |ms|width height]; cbn [startsRound].
  - exact (Hsame (game (step w (TypeInput text))) eq_refl eq_refl).
  - simpl. unfold goBtn_onclick.
    destruct (num_ge (parseInt (input_value (ui (game w)))) 3
              && num_le (parseInt (input_value (ui (game w)))) 7) eqn:Hv.
    + destruct (parseInt (input_value (ui (game w)))) as [|n]; [discriminate|].
      split; [apply startGame_invariant | apply startGame_round_state].
    + exact (Hsame (game (on_game (ui_displayStatus (MESSAGES invalidInput)) w))
               eq_refl eq_refl).
  - exact (click_expectedOrder i (game w) Hinv).
  - destruct (fireTimer_expectedOrder w) as (E1 & E2 & E3).
    destruct Hinv as [Hnum Hexp]. simpl.
    unfold round_invariant. rewrite E1, E2, E3.
    split; [now split|]. split; [reflexivity | now left].
  - exact (Hsame (game (step w (TimePasses ms))) eq_refl eq_refl).
  - exact (Hsame (game (step w (Resize width height))) eq_refl eq_refl).
Qed.

Lemma run_invariant (evs : list Event) (w : Browser) :
  round_invariant (game w) -> round_invariant (game (run evs w)).
Proof.
  revert w. induction evs as [|e evs IH]; intros w Hinv; [exact Hinv|].
  unfold run. simpl. apply IH. now apply step_expectedOrder.
Qed.

Lemma loaded_invariant (win : Window) : round_invariant (game (loaded win)).
Proof. unfold round_invariant. simpl. split; [reflexivity | lia]. Qed.

(** Once the expected order is past the last piece, no click moves it. *)
Lemma clicks_after_win (js : list nat) (g : GameEngine) :
  round_invariant g ->
  expectedOrder g = Z.of_nat (length (buttons g)) + 1 ->
  expectedOrder (clicks js g) = expectedOrder g.
Proof.
  revert g. induction js as [|j js IH]; intros g Hinv Hwon; [reflexivity|].
  unfold clicks. simpl.
  destruct (click_expectedOrder j g Hinv) as (Hinv' & Hlen & Hstep).
  assert (Hsame : expectedOrder (click j g) = expectedOrder g).
  { destruct Hstep as [|Hup]; [assumption|].
    destruct Hinv' as [_ Hb]. rewrite Hlen in Hb. lia. }
  rewrite <- Hsame. apply IH; [exact Hinv'|]. now rewrite Hsame, Hlen.
Qed.

(** C7: in every state the page can reach, the expected order is at least
    1 and at most one more than the number [n] of pieces of the round.
    [startGame] sets it to 1.  Every event that does not start a new round
    keeps the pieces and leaves the expected order unchanged or raises it
    by exactly one.  Once the round is won (the expected order is [n + 1])
    or lost (a wrong click has been handled), no sequence of clicks on
    pieces changes it. *)
Theorem expectedOrder_monotone_bounded (win : Window) (evs : list Event) :
  let w := run evs (loaded win) in
  let n := Z.of_nat (length (buttons (game w))) in
  1 <= expectedOrder (game w) <= n + 1 /\
  (forall m v, expectedOrder (game (startGame m v)) = 1) /\
  (forall e,
     if startsRound w e then expectedOrder (game (step w e)) = 1
     else
       length (buttons (game (step w e))) = length (buttons (game w)) /\
       (expectedOrder (game (step w e)) = expectedOrder (game w) \/
        expectedOrder (game (step w e)) = expectedOrder (game w) + 1)) /\
  (forall js,
     expectedOrder (game w) = n + 1 ->
     expectedOrder (clicks js (game w)) = n + 1) /\
  (forall i btn js,
     isScrambling (game w) = false ->
     buttons (game w) !! i = Some btn ->
     order btn <> expectedOrder (game w) ->
     expectedOrder (clicks js (handleButtonClick i (game w)))
     = expectedOrder (game w)).
Proof.
  intros w n.
  assert (Hinv : round_invariant (game w))
    by (apply run_invariant, loaded_invariant).
  split; [exact (proj2 Hinv)|]. split.
  { intros m v. apply startGame_round_state. }
  split.
  { intros e. apply (step_expectedOrder w e Hinv). }
  split.
  - intros js Hwon. rewrite <- Hwon. now apply clicks_after_win.
  - intros i btn js Hs Hb Hne.
    rewrite (handleButtonClick_wrong i (game w) btn Hs Hb Hne).
    rewrite clicks_all_disabled; [reflexivity|].
    intros j b Hj. now apply (revealAll_lookup _ j b Hj).
Qed.

(** *** A whole round, and rounds that overlap *)

Lemma startGame_timers (n : Z) (w : Browser) :
  timers (startGame n w)
  = enqueue (mkTimer (now w + Z.max 0 (n * 1000)) (ScrambleSequence n n))
      (timers w).
Proof.
  unfold startGame, setTimeout, generateButtons. simpl.
  destruct (generateButtons_from_frame (Z.to_nat n) 1 n (on_game resetGame w))
    as (_ & _ & _ & _ & E5 & E6).
  cbv zeta in E5, E6. now rewrite E5, E6.
Qed.

(** A round started with no timer pending is handed to the player by the
    firing after its [n] scramble passes, numbered 1..n and with the
    expected order 1. *)
Lemma round_reaches_player (n : Z) (w : Browser) :
  0 <= n -> timers w = [] ->
  let w' := Nat.iter (S (Z.to_nat n)) fireTimer (startGame n w) in
  exists g0,
    game w' = prepareForUser g0 /\
    map order (buttons g0) = map Z.of_nat (seq 1 (Z.to_nat n)) /\
    expectedOrder g0 = 1 /\
    ui g0 = ui (game w) /\
    timers w' = [].
Proof.
  intros Hn Hq. cbv zeta. rewrite Nat.iter_succ_r.
  pose proof (startGame_timers n w) as Ht. rewrite Hq in Ht. cbn [enqueue] in Ht.
  rewrite (fireTimer_single _ _ Ht). simpl runCallback. simpl due.
  set (v := set_now _ (set_timers [] (startGame n w))).
  assert (Hv : timers v = []) by reflexivity.
  assert (Hr : n = Z.of_nat (Z.to_nat n)) by lia.
  destruct (countdown_finished n (Z.to_nat n) v Hv) as (Hp & Hend).
  cbv zeta in Hp, Hend. rewrite <- Hr in Hp, Hend.
  destruct (scramblePasses_frame (Z.to_nat n) v) as (E1 & _ & E3 & E4 & _).
  cbv zeta in E1, E3, E4.
  destruct (startGame_round_state n w) as (S1 & _ & S3 & _).
  exists (game (Nat.iter (Z.to_nat n) scramblePass v)).
  unfold page in Hp. injection Hp as Hg _ _.
  split; [exact Hg|]. split.
  { rewrite E1. apply startGame_orders. }
  split; [now rewrite E3|]. split; [now rewrite E4 | exact Hend].
Qed.

Lemma enqueue_keeps (t u : Timer) (q : list Timer) :
  In u q -> In u (enqueue t q).
Proof.
  induction q as [|t' q IH]; simpl; [tauto|].
  destruct (due t <? due t'); simpl; tauto.
Qed.

(** [startGame] cancels nothing: every timer pending before it is still
    pending after it. *)
Lemma startGame_keeps_timers (n : Z) (w : Browser) (u : Timer) :
  In u (timers w) -> In u (timers (startGame n w)).
Proof. rewrite startGame_timers. apply enqueue_keeps. Qed.

(** *** Rounds that do not overlap *)

Lemma generateButtons_from_unarmed (fuel : nat) (i n : Z) (w : Browser) :
  unarmed (game w) -> unarmed (game (generateButtons_from fuel i n w)).
Proof.
  revert i w. induction fuel as [|fuel IH]; intros i w Hw; simpl; [exact Hw|].
  destruct (i <=? n); [|exact Hw]. apply IH.
  unfold unarmed, generateButton, Math_random. simpl.
  repeat (apply Forall_alter; [|intros b _ Hb; exact Hb]).
  apply Forall_app_2; [exact Hw|]. now repeat constructor.
Qed.

Lemma startGame_unarmed (n : Z) (w : Browser) :
  unarmed (game (startGame n w)).
Proof.
  unfold startGame, generateButtons. simpl.
  apply generateButtons_from_unarmed. constructor.
Qed.

Lemma scramblePass_unarmed (w : Browser) :
  unarmed (game w) -> unarmed (game (scramblePass w)).
Proof.
  unfold unarmed. rewrite !Forall_lookup. intros Hw j b.
  rewrite scramblePass_relocates_all.
  destruct (buttons (game w) !! j) as [b0|] eqn:Hb0; simpl; [|discriminate].
  intros [= <-]. exact (Hw j b0 Hb0).
Qed.

Lemma unarmed_click (i : nat) (g : GameEngine) :
  unarmed g -> click i g = g.
Proof.
  intros Hg. apply click_all_disabled. intros j b Hb.
  exact (proj1 (Forall_lookup _ _) Hg j b Hb).
Qed.

Lemma phase_locked (n : nat) (w : Browser) (j : nat) (b : MemoryButton) :
  phase n w ->
  buttons (game w) !! j = Some b ->
  order b < expectedOrder (game w) ->
  onclick (element b) = None.
Proof.
  intros [(_ & _ & _ & Hlock) | (_ & _ & _ & Hoff)] Hb Hlt.
  - exact (Hlock j b Hb Hlt).
  - exact (proj1 (Forall_lookup _ _) Hoff j b Hb).
Qed.

Lemma step_phase (n : nat) (w : Browser) (e : Event) :
  (startsRound w e = true -> timers w = []) ->
  phase n w -> exists n', phase n' (step w e).
Proof.
  intros Hquiet Hph.
  destruct e as [text| |i| |ms|width height]; cbn [startsRound] in Hquiet.
  - exists n. exact Hph.
  - simpl. unfold goBtn_onclick.
    destruct (num_ge (parseInt (input_value (ui (game w)))) 3
              && num_le (parseInt (input_value (ui (game w)))) 7) eqn:Hv.
    + destruct (parseInt (input_value (ui (game w)))) as [|m]; [discriminate|].
      exists (Z.to_nat m). right.
      set (v := on_game (ui_displayStatus "") w).
      split; [apply startGame_orders|]. split.
      { rewrite startGame_timers.
        change (timers v) with (timers w). rewrite (Hquiet eq_refl).
        now eexists _, _, _. }
      split; [apply startGame_round_state | apply startGame_unarmed].
    + exists n. exact Hph.
  - exists n. change (step w (ClickPiece i)) with (on_game (click i) w).
    destruct Hph as [(Hq & Hl) | (Hnum & Ht & He & Hoff)].
    + left. split; [exact Hq|].
      exact (click_preserves_locked n i (game w) Hl).
    + rewrite (on_game_id (click i) w (unarmed_click i (game w) Hoff)).
      right. now repeat split.
  - exists n. change (step w TimerFires) with (fireTimer w).
    destruct Hph as [(Hq & Hl) | (Hnum & (d & m & r & Ht) & He & Hoff)].
    + left. unfold fireTimer. rewrite Hq. now split.
    + rewrite (fireTimer_single w _ Ht). simpl runCallback. simpl due.
      set (v := set_now _ (set_timers [] w)).
      destruct (Z.leb_spec r 0) as [Hr|Hr].
      * rewrite scrambleSequence_done by exact Hr. left.
        split; [reflexivity|]. now apply prepareForUser_locked.
      * rewrite scrambleSequence_more by exact Hr. right.
        destruct (scramblePass_frame v) as (E1 & _ & E3 & _ & _ & _ & E7 & _).
        cbv zeta in E1, E3, E7.
        split; [simpl; now rewrite E1|]. split.
        { unfold setTimeout. simpl. rewrite E7. simpl. now eexists _, _, _. }
        split; [simpl; now rewrite E3|].
        apply (scramblePass_unarmed v Hoff).
  - exists n. exact Hph.
  - exists n. exact Hph.
Qed.

Lemma run_phase (evs : list Event) (n : nat) (w : Browser) :
  rounds_apart evs w -> phase n w -> exists n', phase n' (run evs w).
Proof.
  revert n w. induction evs as [|e evs IH]; intros n w Hap Hph.
  - now exists n.
  - destruct Hap as [Hquiet Hap].
    destruct (step_phase n w e Hquiet Hph) as [n1 Hph1].
    exact (IH n1 (step w e) Hap Hph1).
Qed.

Lemma loaded_phase (win : Window) : phase 0 (loaded win).
Proof.
  left. split; [reflexivity|]. repeat split.
  intros j b Hb. destruct j; discriminate Hb.
Qed.

(** X13: a piece without a click handler ignores the pointer: a click on
    it runs no handler and leaves the engine as it is.  A piece loses its
    handler by its own accepted click, every piece loses it by
    [revealAll], and no click gives one back, so either way the piece stays
    deaf to whatever clicks follow.  Hence in a round of [n] pieces handed
    to the player once, at expected order 1, after any clicks whatever, a
    click on a piece below the expected order changes nothing.  The same
    holds at every moment of a run from page load provided Go is accepted
    only while no countdown is pending; the script does not see to that,
    and without it a second [prepareForUser] in the same round gives the
    handler back. *)
Theorem disabled_piece_ignores_clicks :
  (forall g i btn,
     buttons g !! i = Some btn -> onclick (element btn) = None ->
     click i g = g) /\
  (forall g i btn js,
     isScrambling g = false -> buttons g !! i = Some btn ->
     order btn = expectedOrder g ->
     let g' := clicks js (handleButtonClick i g) in
     (exists btn', buttons g' !! i = Some btn' /\
                   onclick (element btn') = None) /\
     click i g' = g') /\
  (forall g i js,
     clicks js (revealAll g) = revealAll g /\
     click i (revealAll g) = revealAll g) /\
  (forall (n : nat) g0 js,
     map order (buttons g0) = map Z.of_nat (seq 1 n) ->
     expectedOrder g0 = 1 ->
     let g := clicks js (prepareForUser g0) in
     forall i btn,
       buttons g !! i = Some btn -> order btn < expectedOrder g ->
       onclick (element btn) = None /\ click i g = g) /\
  (forall win evs,
     rounds_apart evs (loaded win) ->
     let w := run evs (loaded win) in
     forall i btn,
       buttons (game w) !! i = Some btn ->
       order btn < expectedOrder (game w) ->
       onclick (element btn) = None /\ step w (ClickPiece i) = w).
Proof.
  split; [|split; [|split; [|split]]].
  - intros g i btn. apply click_disabled.
  - intros g i btn js Hs Hb He g'.
    assert (Hl : buttons (handleButtonClick i g) !! i
                 = Some (disableClick (showNumber true btn))).
    { rewrite (handleButtonClick_right i g btn Hs Hb He). cbv zeta.
      transitivity (alter disableClick i (alter (showNumber true) i (buttons g)) !! i).
      - now destruct (expectedOrder g =? Z.of_nat (length (buttons g))).
      - rewrite (lookup_right_click i i _ btn Hb).
        now destruct (decide (i = i)). }
    destruct (clicks_keep_disabled js i _ _ Hl eq_refl) as (b' & Hb' & Hoff).
    fold g' in Hb'. split.
    + now exists b'.
    + now apply click_disabled with b'.
  - intros g i js.
    assert (Hall : forall j b, buttons (revealAll g) !! j = Some b ->
                               onclick (element b) = None).
    { intros j b Hb. now apply (revealAll_lookup g j b). }
    split; [now apply clicks_all_disabled | now apply click_all_disabled].
  - intros n g0 js Hnum He g i btn Hb Hlt.
    destruct (clicks_preserve_locked n js _ (prepareForUser_locked n g0 Hnum He))
      as (_ & _ & Hlock).
    fold g in Hlock. pose proof (Hlock i btn Hb Hlt) as Hoff.
    split; [exact Hoff|]. now apply click_disabled with btn.
  - intros win evs Hap w i btn Hb Hlt.
    destruct (run_phase evs 0 (loaded win) Hap (loaded_phase win)) as [n Hph].
    fold w in Hph. pose proof (phase_locked n w i btn Hph Hb Hlt) as Hoff.
    split; [exact Hoff|].
    change (step w (ClickPiece i)) with (on_game (click i) w).
    apply on_game_id. now apply click_disabled with btn.
Qed.

(** *** A fresh round in closed form *)

Lemma generateButton_buttons (i : Z) (w : Browser) :
  buttons (game (generateButton i w))
  = (buttons (game w) ++ [generatedPiece (randomCalls w) i])%list.
Proof.
  unfold generateButton, Math_random. simpl.
  set (l := buttons (game w)).
  assert (Hend : forall (f : MemoryButton -> MemoryButton) (b : MemoryButton),
            alter f (length l) (l ++ [b])%list = (l ++ [f b])%list).
  { intros f b. rewrite <- (Nat.add_0_r (length l)) at 1.
    now rewrite alter_app_r. }
  rewrite !Hend. reflexivity.
Qed.

Lemma generateButton_gameArea (i : Z) (w : Browser) :
  gameArea (game (generateButton i w))
  = (gameArea (game w) ++ [("btn-" ++ toString i)%string])%list.
Proof. reflexivity. Qed.

Lemma generateButtons_from_closed (fuel : nat) (i n : Z) (w : Browser) :
  let m := Nat.min fuel (Z.to_nat (n + 1 - i)) in
  let w' := generateButtons_from fuel i n w in
  buttons (game w')
  = (buttons (game w)
     ++ map (fun k => generatedPiece (randomCalls w + k) (i + Z.of_nat k))
          (seq 0 m))%list /\
  gameArea (game w')
  = (gameArea (game w)
     ++ map (fun k => ("btn-" ++ toString (i + Z.of_nat k))%string)
          (seq 0 m))%list /\
  randomCalls w' = (randomCalls w + m)%nat.
Proof.
  revert i w. induction fuel as [|fuel IH]; intros i w; cbn [generateButtons_from].
  - simpl. rewrite !app_nil_r. repeat split. lia.
  - destruct (Z.leb_spec i n) as [Hle|Hgt].
    + destruct (IH (i + 1) (generateButton i w)) as (Hb & Ha & Hc).
      cbv zeta in Hb, Ha, Hc.
      rewrite Hb, Ha, Hc, generateButton_buttons, generateButton_gameArea.
      destruct (generateButton_frame i w) as (_ & _ & _ & _ & _ & _ & Hr).
      cbv zeta in Hr. rewrite Hr.
      replace (Z.to_nat (n + 1 - i)) with (S (Z.to_nat (n + 1 - (i + 1))))
        by lia.
      cbv zeta. cbn [Nat.min seq map]. rewrite <- !app_assoc. cbn [app].
      rewrite <- !seq_shift, !map_map.
      split; [|split; [|lia]].
      * f_equal. f_equal.
        -- now rewrite Nat.add_0_r, Z.add_0_r.
        -- apply map_ext. intros k. f_equal; lia.
      * f_equal. f_equal.
        -- now rewrite Z.add_0_r.
        -- apply map_ext. intros k. do 2 f_equal. lia.
    + replace (Z.to_nat (n + 1 - i)) with 0%nat by lia.
      rewrite Nat.min_0_r. simpl. rewrite !app_nil_r. repeat split. lia.
Qed.

Lemma startGame_closed (n : Z) (w : Browser) :
  game (startGame n w)
  = mkGameEngine (generatedPieces (randomCalls w) n)
      (map btn_id (generatedPieces (randomCalls w) n))
      (ui (game w)) 1 false /\
  timers (startGame n w)
  = enqueue (mkTimer (now w + Z.max 0 (n * 1000)) (ScrambleSequence n n))
      (timers w) /\
  randomCalls (startGame n w) = (randomCalls w + Z.to_nat n)%nat /\
  window (startGame n w) = window w /\
  now (startGame n w) = now w.
Proof.
  split; [|split; [apply startGame_timers|]].
  - destruct (generateButtons_from_closed (Z.to_nat n) 1 n (on_game resetGame w))
      as (Hb & Ha & _).
    destruct (generateButtons_from_frame (Z.to_nat n) 1 n (on_game resetGame w))
      as (E1 & E2 & E3 & _).
    cbv zeta in Hb, Ha, E1, E2, E3.
    replace (Z.to_nat (n + 1 - 1)) with (Z.to_nat n) in Hb, Ha by lia.
    rewrite Nat.min_id in Hb, Ha. simpl in Hb, Ha, E1, E2, E3.
    unfold startGame, generateButtons. simpl.
    destruct (game (generateButtons_from (Z.to_nat n) 1 n (on_game resetGame w)))
      as [bs area u e s].
    simpl in *. subst. unfold generatedPieces. rewrite map_map. reflexivity.
  - destruct (generateButtons_from_closed (Z.to_nat n) 1 n (on_game resetGame w))
      as (_ & _ & Hc).
    destruct (generateButtons_from_frame (Z.to_nat n) 1 n (on_game resetGame w))
      as (_ & _ & _ & E4 & _ & E6).
    cbv zeta in Hc, E4, E6.
    replace (Z.to_nat (n + 1 - 1)) with (Z.to_nat n) in Hc by lia.
    rewrite Nat.min_id in Hc.
    unfold startGame, generateButtons. simpl. now rewrite Hc, E4, E6.
Qed.

Lemma generatedPieces_fresh (c : nat) (n : Z) (u : UIHandler) :
  freshRound c n
    (mkGameEngine (generatedPieces c n) (map btn_id (generatedPieces c n))
       u 1 false).
Proof.
  unfold freshRound. cbn [buttons gameArea expectedOrder isScrambling].
  split; [unfold generatedPieces; now rewrite length_map, length_seq|].
  split; [reflexivity|]. split; [reflexivity|]. split; [reflexivity|].
  intros i b. unfold generatedPieces.
  change (map ?f ?l) with (f <$> l). rewrite list_lookup_fmap.
  destruct (seq 0 (Z.to_nat n) !! i) as [k|] eqn:Hk; [|discriminate].
  apply lookup_seq in Hk. destruct Hk as [-> _].
  intros [= <-]. unfold generatedPiece. cbn.
  replace (1 + Z.of_nat i) with (Z.of_nat i + 1) by lia.
  now repeat split.
Qed.

(** X1: [startGame n] builds the round from scratch.  Whatever the engine
    held before - pieces, game-area children, expected order, scrambling
    flag - is gone: the pieces are the [n] freshly generated ones, numbered
    and named in creation order, each with the colour string made from its
    own random number, showing its number in the row layout and without a
    click handler; the game area holds exactly their elements, the
    expected order is 1 and the flag is clear.  Only the
    input panel with its status line is kept, and so is the timer queue,
    to which one callback is added, due [n] seconds later. *)
Theorem startGame_fresh_round (n : Z) (w : Browser) :
  freshRound (randomCalls w) n (game (startGame n w)) /\
  ui (game (startGame n w)) = ui (game w) /\
  timers (startGame n w)
  = enqueue (mkTimer (now w + Z.max 0 (n * 1000)) (ScrambleSequence n n))
      (timers w) /\
  randomCalls (startGame n w) = (randomCalls w + Z.to_nat n)%nat /\
  window (startGame n w) = window w /\
  now (startGame n w) = now w.
Proof.
  destruct (startGame_closed n w) as (Hg & Ht & Hc & Hw & Hn).
  split; [rewrite Hg; apply generatedPieces_fresh|].
  split; [now rewrite Hg|]. now repeat split.
Qed.

(** *** Where a scramble pass puts the pieces *)

Lemma positionAt_bounds (win : Window) (c : nat) :
  let x := fst (positionAt win c) in
  let y := snd (positionAt win c) in
  0 <= x /\ 0 <= y /\
  (160 <= innerWidth win -> x <= innerWidth win - 160) /\
  (innerWidth win < 160 -> x = 0) /\
  (80 <= innerHeight win -> y <= innerHeight win - 80) /\
  (innerHeight win < 80 -> y = 0).
Proof.
  unfold positionAt, getRandomPosition, Math_random, btnWidth, btnHeight.
  simpl.
  split; [lia|]. split; [lia|].
  split; [|split; [|split]]; intros H.
  - pose proof (floor_scaled_upper (random c) (innerWidth win - 160)). lia.
  - pose proof (floor_scaled_negative (random c) (innerWidth win - 160)). lia.
  - pose proof (floor_scaled_upper (random (S c)) (innerHeight win - 80)). lia.
  - pose proof (floor_scaled_negative (random (S c)) (innerHeight win - 80)). lia.
Qed.

(** X2: one scramble pass moves every piece and touches nothing else of
    it.  The piece at index [j] gets absolute positioning and the pixel
    coordinates drawn with the random numbers [2j] and [2j+1] of the pass;
    its id, color, order, label and click handler stay as they were.  The
    coordinates are never negative, and the piece lies inside the window
    in every dimension in which the window is at least as large as the
    piece (160 by 80); in a smaller dimension the coordinate is 0.  The
    pass uses two random numbers per piece and sets the scrambling flag. *)
Theorem scramblePass_places_inside (w : Browser) :
  length (buttons (game (scramblePass w))) = length (buttons (game w)) /\
  randomCalls (scramblePass w)
  = (randomCalls w + 2 * length (buttons (game w)))%nat /\
  isScrambling (game (scramblePass w)) = true /\
  forall j b',
    buttons (game (scramblePass w)) !! j = Some b' ->
    exists b x y,
      buttons (game w) !! j = Some b /\
      (x, y) = positionAt (window w) (randomCalls w + 2 * j) /\
      b' = mkMemoryButton (btn_id b) (color b) (order b)
             (mkElement (className (element b)) (textContent (element b))
                (style_backgroundColor (element b)) "absolute"
                (style_display (element b)) (style_marginRight (element b))
                (toString x ++ "px") (toString y ++ "px")
                (onclick (element b))) /\
      0 <= x /\ 0 <= y /\
      (160 <= innerWidth (window w) -> x <= innerWidth (window w) - 160) /\
      (innerWidth (window w) < 160 -> x = 0) /\
      (80 <= innerHeight (window w) -> y <= innerHeight (window w) - 80) /\
      (innerHeight (window w) < 80 -> y = 0).
Proof.
  destruct (scramblePass_frame w) as (_ & E2 & _ & E4 & _ & _ & _ & _ & E9).
  cbv zeta in E2, E4, E9.
  split; [exact E2|]. split; [exact E9|]. split; [exact E4|].
  intros j b' Hb'. rewrite scramblePass_relocates_all in Hb'.
  pose proof (positionAt_bounds (window w) (randomCalls w + 2 * j)) as Hb.
  cbv zeta in Hb.
  set (p := positionAt (window w) (randomCalls w + 2 * j)) in *.
  destruct (buttons (game w) !! j) as [b|]; [|discriminate].
  injection Hb' as <-.
  exists b, (fst p), (snd p).
  split; [reflexivity|]. split; [now destruct p|]. split; [reflexivity|].
  exact Hb.
Qed.

(** *** The timetable of a round *)

Lemma countdown_clock (n : Z) (r j : nat) (w : Browser) :
  timers w = [] -> (j < r)%nat ->
  let wj := Nat.iter j fireTimer (scrambleSequence n (Z.of_nat r) w) in
  now wj = now w + 2000 * Z.of_nat j /\
  timers wj
  = [mkTimer (now w + 2000 * (Z.of_nat j + 1))
       (ScrambleSequence n (Z.of_nat r - 1 - Z.of_nat j))].
Proof.
  intros Hq. induction j as [|j IH]; intros Hj.
  - cbn [Nat.iter]. rewrite scrambleSequence_more by lia.
    destruct (scramblePass_frame w) as (_ & _ & _ & _ & _ & _ & E7 & E8 & _).
    cbv zeta in E7, E8. unfold setTimeout. simpl timers. simpl now.
    rewrite E7, E8, Hq. cbn [enqueue]. split; [lia|].
    repeat (f_equal; try lia).
  - destruct IH as (Hn & Ht); [lia|].
    set (wj := Nat.iter j fireTimer (scrambleSequence n (Z.of_nat r) w)) in *.
    change (Nat.iter (S j) fireTimer (scrambleSequence n (Z.of_nat r) w))
      with (fireTimer wj).
    cbv zeta. rewrite (fireTimer_single wj _ Ht). simpl runCallback. simpl due.
    rewrite scrambleSequence_more by lia.
    set (v := set_now _ (set_timers [] wj)).
    assert (Hv : now v = now w + 2000 * (Z.of_nat j + 1))
      by (subst v; simpl; lia).
    destruct (scramblePass_frame v) as (_ & _ & _ & _ & _ & _ & E7 & E8 & _).
    cbv zeta in E7, E8. unfold setTimeout. simpl timers. simpl now.
    rewrite E7, E8, Hv. simpl timers. cbn [enqueue]. split; [lia|].
    repeat (f_equal; try lia).
Qed.

Lemma countdown_clock_end (n : Z) (r : nat) (w : Browser) :
  timers w = [] ->
  now (Nat.iter r fireTimer (scrambleSequence n (Z.of_nat r) w))
  = now w + 2000 * Z.of_nat r.
Proof.
  intros Hq. destruct r as [|r].
  - cbn [Nat.iter]. rewrite scrambleSequence_done by lia. simpl. lia.
  - destruct (countdown_clock n (S r) r w Hq) as (Hn & Ht); [lia|].
    set (wj := Nat.iter r fireTimer (scrambleSequence n (Z.of_nat (S r)) w)) in *.
    change (Nat.iter (S r) fireTimer (scrambleSequence n (Z.of_nat (S r)) w))
      with (fireTimer wj).
    rewrite (fireTimer_single wj _ Ht). simpl runCallback. simpl due.
    rewrite scrambleSequence_done by lia. simpl. lia.
Qed.

(** The page on which the first callback of a round runs. *)
Lemma startGame_first_firing (n : Z) (w : Browser) :
  0 <= n -> timers w = [] ->
  exists v,
    fireTimer (startGame n w) = scrambleSequence n n v /\
    timers v = [] /\
    now v = now w + 1000 * n /\
    page v = page (startGame n w).
Proof.
  intros Hn Hq.
  pose proof (startGame_timers n w) as Ht. rewrite Hq in Ht.
  cbn [enqueue] in Ht.
  exists (set_now (Z.max (now (startGame n w)) (now w + Z.max 0 (n * 1000)))
            (set_timers [] (startGame n w))).
  split; [now rewrite (fireTimer_single _ _ Ht)|].
  split; [reflexivity|]. split; [|reflexivity].
  destruct (startGame_closed n w) as (_ & _ & _ & _ & Hnow).
  unfold set_now. cbn [now]. rewrite Hnow. lia.
Qed.

(** X3: the timetable of a round started at time [t] with no timer
    pending, when each timer fires when it is due.  The first callback runs
    at [t + 1000 n]; each of the [n] scramble passes is followed by a
    continuation due 2000 ms later; the callback that finds the counter at
    zero runs at [t + 1000 n + 2000 n], clears the scrambling flag and
    leaves no timer behind: the round is handed to the player [3000 n] ms
    after Go. *)
Theorem round_timetable (n : Z) (w : Browser) :
  0 <= n -> timers w = [] ->
  timers (startGame n w)
  = [mkTimer (now w + 1000 * n) (ScrambleSequence n n)] /\
  (forall k, (k < Z.to_nat n)%nat ->
     let wk := Nat.iter (S k) fireTimer (startGame n w) in
     now wk = now w + 1000 * n + 2000 * Z.of_nat k /\
     isScrambling (game wk) = true /\
     timers wk
     = [mkTimer (now w + 1000 * n + 2000 * (Z.of_nat k + 1))
          (ScrambleSequence n (n - 1 - Z.of_nat k))]) /\
  let wn := Nat.iter (S (Z.to_nat n)) fireTimer (startGame n w) in
  now wn = now w + 3000 * n /\
  isScrambling (game wn) = false /\
  timers wn = [].
Proof.
  intros Hn Hq.
  destruct (startGame_first_firing n w Hn Hq) as (v & Hfire & Hv & Hnow & _).
  set (r := Z.to_nat n).
  assert (Hr : Z.of_nat r = n) by (subst r; lia).
  assert (Hfire' : fireTimer (startGame n w)
                   = scrambleSequence n (Z.of_nat r) v) by congruence.
  split; [|split].
  - rewrite startGame_timers, Hq. cbn [enqueue]. do 2 f_equal. lia.
  - intros k Hk. cbv zeta. rewrite Nat.iter_succ_r, Hfire'.
    destruct (countdown_clock n r k v Hv Hk) as (Hc & Ht).
    destruct (countdown_running n r k v Hv Hk) as (Hp & _).
    destruct (scramblePass_frame (Nat.iter k scramblePass v))
      as (_ & _ & _ & F4 & _).
    cbv zeta in Hc, Ht, Hp, F4.
    split; [rewrite Hc; lia|]. split.
    + unfold page in Hp. injection Hp as Hg _ _. now rewrite Hg.
    + rewrite Ht. repeat (f_equal; try lia).
  - cbv zeta. rewrite Nat.iter_succ_r, Hfire'.
    pose proof (countdown_clock_end n r v Hv) as Hc.
    destruct (countdown_finished n r v Hv) as (Hp & Ht).
    cbv zeta in Hp, Ht.
    split; [rewrite Hc; lia|]. split; [|exact Ht].
    unfold page in Hp. injection Hp as Hg _ _. now rewrite Hg.
Qed.

(** *** Numbers stay visible until the handover *)

Lemma generatedPieces_labelled (c : nat) (n : Z) :
  Forall labelled (generatedPieces c n).
Proof.
  unfold generatedPieces. apply Forall_forall. intros b Hb.
  apply list_elem_of_In, in_map_iff in Hb. destruct Hb as (k & <- & _).
  now split.
Qed.

Lemma scramblePass_labelled (w : Browser) :
  Forall labelled (buttons (game w)) ->
  Forall labelled (buttons (game (scramblePass w))).
Proof.
  rewrite !Forall_lookup. intros Hw j b.
  rewrite scramblePass_relocates_all.
  destruct (buttons (game w) !! j) as [b0|] eqn:Hb0; [|discriminate].
  intros [= <-]. exact (Hw j b0 Hb0).
Qed.

Lemma scramblePasses_labelled (k : nat) (w : Browser) :
  Forall labelled (buttons (game w)) ->
  Forall labelled (buttons (game (Nat.iter k scramblePass w))).
Proof.
  intros Hw. induction k as [|k IH]; [exact Hw|].
  cbn [Nat.iter]. now apply scramblePass_labelled.
Qed.

Lemma page_game (w w' : Browser) : page w = page w' -> game w = game w'.
Proof. unfold page. now intros [= -> _ _]. Qed.

Lemma labelled_ignore_clicks (i : nat) (w : Browser) :
  Forall labelled (buttons (game w)) -> step w (ClickPiece i) = w.
Proof.
  intros Hw. change (step w (ClickPiece i)) with (on_game (click i) w).
  apply on_game_id, click_all_disabled. intros j b Hb.
  exact (proj2 (proj1 (Forall_lookup _ _) Hw j b Hb)).
Qed.

(** X4: from Go until the handover the player can only look.  In a round
    of [n] started with no timer pending, during the memorization pause
    and after each of the [n] scramble passes, every piece shows its number
    and has no click handler, so a click on any piece changes nothing; the
    expected order is 1 and a callback is still pending. *)
Theorem countdown_shows_numbers (n : Z) (w : Browser) :
  0 <= n -> timers w = [] ->
  forall k, (k <= Z.to_nat n)%nat ->
    let wk := Nat.iter k fireTimer (startGame n w) in
    Forall labelled (buttons (game wk)) /\
    map order (buttons (game wk)) = map Z.of_nat (seq 1 (Z.to_nat n)) /\
    expectedOrder (game wk) = 1 /\
    timers wk <> [] /\
    forall i, step wk (ClickPiece i) = wk.
Proof.
  intros Hn Hq k Hk. cbv zeta.
  destruct (startGame_closed n w) as (Hg & _).
  assert (H0 : Forall labelled (buttons (game (startGame n w)))).
  { rewrite Hg. apply generatedPieces_labelled. }
  assert (Hlab : Forall labelled
            (buttons (game (Nat.iter k fireTimer (startGame n w)))) /\
          map order (buttons (game (Nat.iter k fireTimer (startGame n w))))
          = map Z.of_nat (seq 1 (Z.to_nat n)) /\
          expectedOrder (game (Nat.iter k fireTimer (startGame n w))) = 1 /\
          timers (Nat.iter k fireTimer (startGame n w)) <> []).
  { destruct k as [|j].
    - change (Nat.iter 0 fireTimer (startGame n w)) with (startGame n w).
      split; [exact H0|]. split; [apply startGame_orders|].
      split; [apply startGame_round_state|].
      rewrite startGame_timers, Hq. discriminate.
    - destruct (startGame_first_firing n w Hn Hq) as (v & Hfire & Hv & _ & Hpv).
      set (r := Z.to_nat n) in *.
      assert (Hr : Z.of_nat r = n) by (subst r; lia).
      assert (Hfire' : fireTimer (startGame n w)
                       = scrambleSequence n (Z.of_nat r) v) by congruence.
      rewrite Nat.iter_succ_r, Hfire'.
      destruct (countdown_running n r j v Hv) as (Hp & d & Ht); [lia|].
      cbv zeta in Hp, Ht.
      pose proof (page_game _ _ Hp) as Hgj.
      pose proof (page_game _ _ Hpv) as Hgv.
      destruct (scramblePasses_frame (S j) v) as (E1 & _ & E3 & _).
      cbv zeta in E1, E3.
      rewrite Hgj. split.
      + apply scramblePasses_labelled. now rewrite Hgv.
      + rewrite E1, E3, Hgv. split; [apply startGame_orders|].
        split; [apply startGame_round_state|]. rewrite Ht. discriminate. }
  destruct Hlab as (H1 & H2 & H3 & H4).
  repeat split; try assumption.
  intros i. now apply labelled_ignore_clicks.
Qed.

(** *** Every countdown ends *)

Lemma pendingFirings_enqueue (t : Timer) (q : list Timer) :
  pendingFirings (enqueue t q) = (firingsLeft t + pendingFirings q)%nat.
Proof.
  unfold pendingFirings. induction q as [|t' q IH]; simpl; [reflexivity|].
  destruct (due t <? due t'); simpl; [reflexivity|]. rewrite IH. lia.
Qed.

Lemma scrambleSequence_timers (n remaining : Z) (w : Browser) :
  timers (scrambleSequence n remaining w)
  = if remaining <=? 0 then timers w
    else enqueue (mkTimer (now w + 2000) (ScrambleSequence n (remaining - 1)))
           (timers w).
Proof.
  destruct (Z.leb_spec remaining 0) as [H|H].
  - now rewrite scrambleSequence_done.
  - rewrite scrambleSequence_more by exact H.
    destruct (scramblePass_frame w) as (_ & _ & _ & _ & _ & _ & E7 & E8 & _).
    cbv zeta in E7, E8. unfold setTimeout. simpl timers. now rewrite E7, E8.
Qed.

Lemma fireTimer_pendingFirings (w : Browser) :
  timers w <> [] ->
  S (pendingFirings (timers (fireTimer w))) = pendingFirings (timers w).
Proof.
  unfold fireTimer. destruct (timers w) as [|[d [n r]] rest]; [congruence|].
  intros _. simpl runCallback. rewrite scrambleSequence_timers.
  destruct (Z.leb_spec r 0) as [H|H].
  - unfold pendingFirings, firingsLeft. simpl. lia.
  - rewrite pendingFirings_enqueue.
    unfold pendingFirings, firingsLeft. simpl. lia.
Qed.

Lemma fireTimer_idle (w : Browser) : timers w = [] -> fireTimer w = w.
Proof. intros H. unfold fireTimer. now rewrite H. Qed.

Lemma pendingFirings_0 (q : list Timer) : pendingFirings q = 0%nat -> q = [].
Proof. destruct q as [|[d [n r]] q]; [reflexivity | discriminate]. Qed.

Lemma all_countdowns_end_from (m : nat) (w : Browser) :
  pendingFirings (timers w) = m ->
  timers (Nat.iter m fireTimer w) = [] /\
  (timers w <> [] ->
   isScrambling (game (Nat.iter m fireTimer w)) = false /\
   forall i b, buttons (game (Nat.iter m fireTimer w)) !! i = Some b ->
     textContent (element b) = "" /\
     onclick (element b) = Some HandleButtonClick).
Proof.
  revert w. induction m as [|m IH]; intros w Hm.
  - split; [now apply pendingFirings_0|].
    intros Hne. now rewrite (pendingFirings_0 _ Hm) in Hne.
  - assert (Hne : timers w <> []).
    { intros Hnil. rewrite Hnil in Hm. discriminate. }
    pose proof (fireTimer_pendingFirings w Hne) as Hdec.
    rewrite Hm in Hdec. injection Hdec as Hdec.
    rewrite Nat.iter_succ_r.
    destruct (IH (fireTimer w) Hdec) as (Hend & Hlast).
    split; [exact Hend|]. intros _.
    destruct (timers (fireTimer w)) as [|t q] eqn:Hq.
    + assert (m = 0%nat) by (rewrite <- Hdec; reflexivity). subst m.
      change (Nat.iter 0 fireTimer (fireTimer w)) with (fireTimer w).
      unfold fireTimer in *.
      destruct (timers w) as [|[d [n r]] rest]; [congruence|].
      simpl runCallback in *. rewrite scrambleSequence_timers in Hq.
      destruct (Z.leb_spec r 0) as [Hr|Hr].
      * rewrite scrambleSequence_done by exact Hr.
        split; [reflexivity|]. apply prepareForUser_lookup.
      * exfalso. revert Hq. generalize (timers (set_now (Z.max (now w) d) (set_timers rest w))).
        intros q Hq. destruct q as [|t' q]; simpl in Hq; [discriminate|].
        destruct (_ <? _) in Hq; discriminate.
    + apply Hlast. discriminate.
Qed.

(** X5: however many rounds overlap, the timers run out and the game ends
    up waiting for the player.  Each pending callback stands for one
    firing more than its counter; after as many firings as the pending
    callbacks stand for in total, no timer is pending, and - if there was
    one to begin with - the scrambling flag is clear and every piece is
    hidden and clickable, the pieces, their orders and the expected order
    being those from before. *)
Theorem all_countdowns_end (w : Browser) :
  let w' := Nat.iter (pendingFirings (timers w)) fireTimer w in
  timers w' = [] /\
  fireTimer w' = w' /\
  map order (buttons (game w')) = map order (buttons (game w)) /\
  expectedOrder (game w') = expectedOrder (game w) /\
  (timers w <> [] ->
   isScrambling (game w') = false /\
   forall i b, buttons (game w') !! i = Some b ->
     textContent (element b) = "" /\
     onclick (element b) = Some HandleButtonClick).
Proof.
  cbv zeta.
  destruct (all_countdowns_end_from (pendingFirings (timers w)) w eq_refl)
    as (Hend & Hlast).
  split; [exact Hend|]. split; [now apply fireTimer_idle|].
  assert (Hkeep : forall m,
    map order (buttons (game (Nat.iter m fireTimer w)))
    = map order (buttons (game w)) /\
    expectedOrder (game (Nat.iter m fireTimer w)) = expectedOrder (game w)).
  { induction m as [|m [IH1 IH2]]; [now split|].
    change (Nat.iter (S m) fireTimer w) with (fireTimer (Nat.iter m fireTimer w)).
    destruct (fireTimer_expectedOrder (Nat.iter m fireTimer w)) as (E1 & _ & E3).
    rewrite E1, E3. now split. }
  destruct (Hkeep (pendingFirings (timers w))) as [H1 H2].
  split; [exact H1|]. split; [exact H2 | exact Hlast].
Qed.

(** *** Whatever the player clicks *)

Lemma prepareForUser_playing (n : nat) (g0 : GameEngine) :
  map order (buttons g0) = map Z.of_nat (seq 1 n) ->
  expectedOrder g0 = 1 ->
  playing n (messageDisplay (ui g0)) (prepareForUser g0).
Proof.
  intros Hnum He. unfold playing.
  assert (Hexp : expectedOrder (prepareForUser g0) = 1) by exact He.
  rewrite Hexp. split; [reflexivity|]. split.
  { unfold prepareForUser, forEach_button. simpl. now rewrite map_order_map. }
  split; [lia|]. split; [|reflexivity].
  intros j b Hb. unfold prepareForUser in Hb.
  rewrite forEach_button_lookup in Hb. simpl in Hb.
  destruct (buttons g0 !! j) as [b0|] eqn:Hb0; [|discriminate].
  injection Hb as <-. simpl.
  destruct (numbered_lookup n _ j b0 Hnum Hb0) as [Ho _].
  rewrite (proj2 (Z.ltb_ge (order b0) 1)) by lia. now split.
Qed.

Lemma click_playing (n i : nat) (status0 : string) (g : GameEngine) :
  playing n status0 g ->
  playing n status0 (click i g) \/ lost n (click i g).
Proof.
  intros (Hs & Hnum & Hexp & Hbtn & Hmsg). unfold click.
  destruct (buttons g !! i) as [bi|] eqn:Hbi; [|left; now repeat split].
  destruct (onclick (element bi)) as [[]|] eqn:Hc; [|left; now repeat split].
  destruct (numbered_lookup n _ i bi Hnum Hbi) as [Hoi Hi].
  assert (Hge : expectedOrder g <= order bi).
  { pose proof (Hbtn i bi Hbi) as Hst.
    destruct (Z.ltb_spec (order bi) (expectedOrder g)); [|lia].
    destruct Hst as [_ Hoff]. congruence. }
  assert (Hlen : length (buttons g) = n) by (now apply numbered_length).
  destruct (Z.eq_dec (order bi) (expectedOrder g)) as [Heq|Hne].
  - left. rewrite (handleButtonClick_right i g bi Hs Hbi Heq). cbv zeta.
    set (g2 := on_button i disableClick (on_button i (showNumber true) g)).
    assert (HA : isScrambling g2 = false) by exact Hs.
    assert (HB : map order (buttons g2) = map Z.of_nat (seq 1 n)).
    { subst g2. simpl. now rewrite !map_order_alter. }
    assert (HD : forall j b, buttons g2 !! j = Some b ->
              if order b <? expectedOrder g + 1
              then textContent (element b) = toString (order b) /\
                   onclick (element b) = None
              else textContent (element b) = "" /\
                   onclick (element b) = Some HandleButtonClick).
    { intros j b. subst g2. simpl buttons.
      rewrite (lookup_right_click i j _ bi Hbi).
      destruct (decide (i = j)) as [<-|Hij].
      - intros [= <-]. simpl.
        rewrite (proj2 (Z.ltb_lt (order bi) (expectedOrder g + 1))) by lia.
        now split.
      - intros Hb. pose proof (Hbtn j b Hb) as Hst.
        destruct (numbered_lookup n _ j b Hnum Hb) as [Hoj _].
        destruct (Z.ltb_spec (order b) (expectedOrder g)),
                 (Z.ltb_spec (order b) (expectedOrder g + 1));
          try lia; exact Hst. }
    assert (HE : messageDisplay (ui g2) = status0).
    { subst g2. simpl. rewrite Hmsg.
      rewrite (proj2 (Z.eqb_neq (expectedOrder g) (Z.of_nat n + 1))) by lia.
      now rewrite Bool.andb_false_r. }
    unfold playing.
    destruct (Z.eqb_spec (expectedOrder g) (Z.of_nat (length (buttons g))))
      as [Hn|Hn];
      cbn [isScrambling buttons expectedOrder ui set_expectedOrder
           ui_displayStatus set_ui messageDisplay displayStatus];
      (split; [exact HA|]; split; [exact HB|]; split; [lia|];
       split; [exact HD|]).
    + rewrite (proj2 (Z.ltb_lt 1 (expectedOrder g + 1))) by lia.
      now rewrite (proj2 (Z.eqb_eq (expectedOrder g + 1) (Z.of_nat n + 1))) by lia.
    + rewrite (proj2 (Z.eqb_neq (expectedOrder g + 1) (Z.of_nat n + 1))) by lia.
      now rewrite Bool.andb_false_r.
  - right. rewrite (handleButtonClick_wrong i g bi Hs Hbi Hne).
    split; [exact Hs|]. split.
    { unfold revealAll, forEach_button. simpl. now rewrite map_order_map. }
    split; [simpl; lia|]. split; [|reflexivity].
    intros j b Hb. exact (revealAll_lookup _ j b Hb).
Qed.

Lemma lost_click (n i : nat) (g : GameEngine) : lost n g -> click i g = g.
Proof.
  intros (_ & _ & _ & Hall & _). apply click_all_disabled.
  intros j b Hb. exact (proj2 (Hall j b Hb)).
Qed.

Lemma clicks_outcomes (n : nat) (status0 : string) (js : list nat)
    (g : GameEngine) :
  playing n status0 g \/ lost n g ->
  playing n status0 (clicks js g) \/ lost n (clicks js g).
Proof.
  revert g. induction js as [|j js IH]; intros g Hg; [exact Hg|].
  unfold clicks. simpl. apply IH. destruct Hg as [Hp|Hl].
  - now apply click_playing.
  - right. now rewrite (lost_click n j g Hl).
Qed.

Lemma play_outcome (n : nat) (g0 : GameEngine) (js : list nat) :
  map order (buttons g0) = map Z.of_nat (seq 1 n) ->
  expectedOrder g0 = 1 ->
  playing n (messageDisplay (ui g0)) (clicks js (prepareForUser g0)) \/
  lost n (clicks js (prepareForUser g0)).
Proof.
  intros Hnum He. apply clicks_outcomes. left.
  now apply prepareForUser_playing.
Qed.

(** X6: whatever the player clicks, in whatever order and however often,
    a round of [n] pieces handed to the player is in one of two
    conditions.  Either it is being played: the pieces below the expected
    order are exactly those that show their number and have lost their
    handler, the others are hidden and clickable, and the status line is
    what it was at the handover until the expected order passes [n], when
    it is the win message.  Or it is lost: every number is shown, no piece
    is clickable, the status line is the wrong-order message and the
    expected order stays where the wrong click found it, at most [n]. *)
Theorem play_is_won_or_lost (n : nat) (g0 : GameEngine) (js : list nat) :
  map order (buttons g0) = map Z.of_nat (seq 1 n) ->
  expectedOrder g0 = 1 ->
  playing n (messageDisplay (ui g0)) (clicks js (prepareForUser g0)) \/
  lost n (clicks js (prepareForUser g0)).
Proof. exact (play_outcome n g0 js). Qed.

Lemma toString_nonempty (z : Z) : toString z <> "".
Proof.
  unfold toString. destruct (Z.to_int z) as [d|d]; simpl.
  - destruct d; discriminate.
  - discriminate.
Qed.

(** X7: from the handover on, whatever is clicked, a piece is clickable
    exactly when its number is hidden, and has no handler exactly when its
    number is shown. *)
Theorem clickable_iff_hidden (n : nat) (g0 : GameEngine) (js : list nat) :
  map order (buttons g0) = map Z.of_nat (seq 1 n) ->
  expectedOrder g0 = 1 ->
  forall j b, buttons (clicks js (prepareForUser g0)) !! j = Some b ->
    (onclick (element b) = Some HandleButtonClick
     <-> textContent (element b) = "") /\
    (onclick (element b) = None
     <-> textContent (element b) = toString (order b)).
Proof.
  intros Hnum He j b Hb.
  pose proof (toString_nonempty (order b)) as Hne.
  assert (Hcases : (textContent (element b) = toString (order b) /\
                    onclick (element b) = None) \/
                   (textContent (element b) = "" /\
                    onclick (element b) = Some HandleButtonClick)).
  { destruct (play_outcome n g0 js Hnum He)
      as [(_ & _ & _ & Hbtn & _) | (_ & _ & _ & Hall & _)].
    - pose proof (Hbtn j b Hb) as Hst.
      destruct (order b <? _); [now left | now right].
    - left. exact (Hall j b Hb). }
  destruct Hcases as [[Ht Hc] | [Ht Hc]]; rewrite Ht, Hc;
    (split; split; intros H; try reflexivity; try discriminate; congruence).
Qed.

(** X8: a won round stays won.  In a round of [n >= 1] pieces handed to the
    player, once the expected order has passed [n], the status line holds
    the win message, every piece shows its number and none is clickable,
    and further clicks change nothing at all. *)
Theorem won_round_is_final (n : nat) (g0 : GameEngine) (js : list nat) :
  map order (buttons g0) = map Z.of_nat (seq 1 n) ->
  expectedOrder g0 = 1 ->
  (0 < n)%nat ->
  let g := clicks js (prepareForUser g0) in
  expectedOrder g = Z.of_nat n + 1 ->
  messageDisplay (ui g) = MESSAGES excellentMemory /\
  (forall j b, buttons g !! j = Some b ->
     textContent (element b) = toString (order b) /\
     onclick (element b) = None) /\
  forall js', clicks js' g = g.
Proof.
  intros Hnum He Hn. cbv zeta. intros Hwon.
  destruct (play_outcome n g0 js Hnum He)
    as [(_ & Hnum' & _ & Hbtn & Hmsg) | (_ & _ & Hle & _)]; [|lia].
  set (g := clicks js (prepareForUser g0)) in *.
  assert (Hall : forall j b, buttons g !! j = Some b ->
            textContent (element b) = toString (order b) /\
            onclick (element b) = None).
  { intros j b Hb. pose proof (Hbtn j b Hb) as Hst.
    destruct (numbered_lookup n _ j b Hnum' Hb) as [Ho Hj].
    rewrite (proj2 (Z.ltb_lt (order b) (expectedOrder g))) in Hst by lia.
    exact Hst. }
  split.
  - rewrite Hmsg, Hwon, Z.eqb_refl.
    now rewrite (proj2 (Z.ltb_lt 1 (Z.of_nat n + 1))) by lia.
  - split; [exact Hall|]. intros js'. apply clicks_all_disabled.
    intros j b Hb. exact (proj2 (Hall j b Hb)).
Qed.

(** *** While a countdown is pending *)

(** X9: in a run from page load in which Go is accepted only while no
    countdown is pending, at most one callback is ever pending.  While one
    is, the expected order is 1 and a click on any piece changes nothing;
    when none is, the scrambling flag is clear.  So a piece that has a
    click handler is never clicked while the flag is set: in such a run
    the first line of [handleButtonClick] turns no click away. *)
Theorem countdown_locks_pieces (win : Window) (evs : list Event) :
  rounds_apart evs (loaded win) ->
  let w := run evs (loaded win) in
  (length (timers w) <= 1)%nat /\
  (timers w <> [] ->
   expectedOrder (game w) = 1 /\ forall i, step w (ClickPiece i) = w) /\
  (timers w = [] -> isScrambling (game w) = false) /\
  (forall i b,
     buttons (game w) !! i = Some b ->
     onclick (element b) = Some HandleButtonClick ->
     isScrambling (game w) = false /\ timers w = []).
Proof.
  intros Hap w.
  destruct (run_phase evs 0 (loaded win) Hap (loaded_phase win)) as [n Hph].
  fold w in Hph.
  destruct Hph as [(Hq & Hs & _ & _) | (_ & (d & m & r & Ht) & He & Hoff)].
  - rewrite Hq. split; [simpl; lia|]. split; [congruence|].
    split; [intros _; exact Hs|]. intros i b _ _. now split.
  - rewrite Ht. split; [simpl; lia|]. split.
    + intros _. split; [exact He|]. intros i.
      change (step w (ClickPiece i)) with (on_game (click i) w).
      apply on_game_id. now apply unarmed_click.
    + split; [discriminate|]. intros i b Hb Hon.
      pose proof (proj1 (Forall_lookup _ _) Hoff i b Hb) as Hnone.
      simpl in Hnone. congruence.
Qed.

(** *** What never changes about a piece *)

Lemma map_alter_same {B : Type} (p : MemoryButton -> B)
    (f : MemoryButton -> MemoryButton) (i : nat) (l : list MemoryButton) :
  (forall b, p (f b) = p b) -> map p (alter f i l) = map p l.
Proof.
  intros Hf. revert i. induction l as [|b l IH]; intros [|i]; simpl;
    try reflexivity.
  - now rewrite Hf.
  - f_equal. apply IH.
Qed.

Lemma map_map_same {B : Type} (p : MemoryButton -> B)
    (f : MemoryButton -> MemoryButton) (l : list MemoryButton) :
  (forall b, p (f b) = p b) -> map p (map f l) = map p l.
Proof. intros Hf. rewrite map_map. apply map_ext. exact Hf. Qed.

Lemma click_identity (i : nat) (g : GameEngine) :
  map pieceIdentity (buttons (click i g)) = map pieceIdentity (buttons g) /\
  gameArea (click i g) = gameArea g.
Proof.
  unfold click. destruct (buttons g !! i) as [bi|] eqn:Hbi; [|now split].
  destruct (onclick (element bi)) as [[]|]; [|now split].
  unfold handleButtonClick. destruct (isScrambling g); [now split|].
  rewrite Hbi. destruct (order bi =? expectedOrder g).
  - cbv zeta.
    destruct (expectedOrder _ =? Z.of_nat (length (buttons _))); simpl;
      rewrite !map_alter_same by reflexivity; now split.
  - unfold revealAll, forEach_button. simpl.
    rewrite map_map_same by reflexivity. now split.
Qed.

Lemma relocate_each_gameArea (l : list nat) (w : Browser) :
  gameArea (game (fold_left (fun v i => relocate i v) l w))
  = gameArea (game w).
Proof.
  revert w. induction l as [|i l IH]; intros w; simpl; [reflexivity|].
  now rewrite IH.
Qed.

Lemma scramblePass_identity (w : Browser) :
  map pieceIdentity (buttons (game (scramblePass w)))
  = map pieceIdentity (buttons (game w)) /\
  gameArea (game (scramblePass w)) = gameArea (game w).
Proof.
  split.
  - apply list_eq. intros j.
    change (map pieceIdentity (buttons (game (scramblePass w))))
      with (pieceIdentity <$> buttons (game (scramblePass w))).
    change (map pieceIdentity (buttons (game w)))
      with (pieceIdentity <$> buttons (game w)).
    rewrite !list_lookup_fmap, scramblePass_relocates_all.
    now destruct (buttons (game w) !! j).
  - unfold scramblePass, relocateAll. now rewrite relocate_each_gameArea.
Qed.

Lemma step_identity (w : Browser) (e : Event) :
  startsRound w e = false ->
  map pieceIdentity (buttons (game (step w e)))
  = map pieceIdentity (buttons (game w)) /\
  gameArea (game (step w e)) = gameArea (game w).
Proof.
  intros Hno. destruct e as [text| |i| |ms|width height];
    cbn [startsRound] in Hno.
  - now split.
  - simpl. unfold goBtn_onclick. rewrite Hno. now split.
  - exact (click_identity i (game w)).
  - change (step w TimerFires) with (fireTimer w). unfold fireTimer.
    destruct (timers w) as [|[d [n r]] rest]; [now split|].
    simpl runCallback. destruct (Z.leb_spec r 0) as [Hr|Hr].
    + rewrite scrambleSequence_done by exact Hr.
      unfold prepareForUser, forEach_button. simpl.
      rewrite map_map_same by reflexivity. now split.
    + rewrite scrambleSequence_more by exact Hr.
      exact (scramblePass_identity
               (set_now (Z.max (now w) d) (set_timers rest w))).
  - now split.
  - now split.
Qed.

(** X10: between one accepted Go and the next, nothing changes what a
    piece is.  Every event that does not start a round - a click on a
    piece, a timer firing, a rejected Go, typing, time passing, a resize -
    leaves the list of pieces with the same ids, colors and orders, in the
    same sequence, their elements with the same class and background
    color, and the game area with the same children. *)
Theorem pieces_keep_identity (w : Browser) (e : Event) :
  startsRound w e = false ->
  map pieceIdentity (buttons (game (step w e)))
  = map pieceIdentity (buttons (game w)) /\
  gameArea (game (step w e)) = gameArea (game w).
Proof. exact (step_identity w e). Qed.

Lemma wellFormedPieces_same_identity (g g' : GameEngine) :
  map pieceIdentity (buttons g') = map pieceIdentity (buttons g) ->
  gameArea g' = gameArea g ->
  wellFormedPieces g -> wellFormedPieces g'.
Proof.
  intros Hid Harea [Hmirror Hpieces]. split.
  - rewrite Harea, Hmirror.
    transitivity (map (fun t : string * string * Z * string * option CssColor =>
                         fst (fst (fst (fst t))))
                    (map pieceIdentity (buttons g))).
    + now rewrite map_map.
    + rewrite <- Hid. now rewrite map_map.
  - intros i b' Hb'.
    assert (Hl : map pieceIdentity (buttons g') !! i = Some (pieceIdentity b')).
    { change (map pieceIdentity (buttons g'))
        with (pieceIdentity <$> buttons g').
      now rewrite list_lookup_fmap, Hb'. }
    rewrite Hid in Hl.
    change (map pieceIdentity (buttons g))
      with (pieceIdentity <$> buttons g) in Hl.
    rewrite list_lookup_fmap in Hl.
    destruct (buttons g !! i) as [b|] eqn:Hb; [|discriminate].
    destruct (Hpieces i b Hb) as (H1 & H2 & H3).
    unfold pieceIdentity in Hl. cbn [fmap option_fmap option_map] in Hl.
    injection Hl as E1 _ E3 E4 _. rewrite <- E1, <- E3, <- E4.
    now repeat split.
Qed.

Lemma startGame_wellFormed (n : Z) (w : Browser) :
  wellFormedPieces (game (startGame n w)).
Proof.
  destruct (startGame_closed n w) as (Hg & _).
  destruct (generatedPieces_fresh (randomCalls w) n (ui (game w)))
    as (_ & Harea & _ & _ & Hpieces).
  rewrite Hg. split; [exact Harea|]. intros i b Hb.
  destruct (Hpieces i b Hb) as (H1 & H2 & _ & H4 & _). now repeat split.
Qed.

Lemma step_wellFormed (w : Browser) (e : Event) :
  wellFormedPieces (game w) -> wellFormedPieces (game (step w e)).
Proof.
  intros Hwf. destruct (startsRound w e) eqn:Hst.
  - destruct e; try discriminate. simpl. unfold goBtn_onclick.
    cbn [startsRound] in Hst. rewrite Hst.
    destruct (parseInt (input_value (ui (game w)))) as [|n]; [discriminate|].
    apply startGame_wellFormed.
  - destruct (step_identity w e Hst) as [Hid Harea].
    exact (wellFormedPieces_same_identity _ _ Hid Harea Hwf).
Qed.

Lemma run_wellFormed (evs : list Event) (w : Browser) :
  wellFormedPieces (game w) -> wellFormedPieces (game (run evs w)).
Proof.
  revert w. induction evs as [|e evs IH]; intros w Hwf; [exact Hwf|].
  unfold run. simpl. apply IH. now apply step_wellFormed.
Qed.

(** X11: at every moment of every run from page load, whatever happens -
    overlapping rounds included - the game area holds exactly the elements
    of [this.buttons], in the same order, and the piece at index [i] is
    the one created [i+1]-th: its id is [btn-(i+1)], its order is [i+1]
    and its element has the class [memory-button]. *)
Theorem game_area_mirrors_pieces (win : Window) (evs : list Event) :
  let g := game (run evs (loaded win)) in
  gameArea g = map btn_id (buttons g) /\
  forall i b, buttons g !! i = Some b ->
    btn_id b = "btn-" ++ toString (Z.of_nat i + 1) /\
    order b = Z.of_nat i + 1 /\
    className (element b) = "memory-button".
Proof.
  cbv zeta.
  assert (H0 : wellFormedPieces (game (loaded win))).
  { split; [reflexivity|]. intros i b Hb. destruct i; discriminate Hb. }
  exact (run_wellFormed evs (loaded win) H0).
Qed.

(** *** From the input field to a round *)

Lemma parseInt_round_size (n : Z) :
  3 <= n <= 7 ->
  sanitizeNumberInput (toString n) = toString n /\
  parseInt (toString n) = Int n.
Proof.
  intros Hn.
  assert (Hcases : n = 3 \/ n = 4 \/ n = 5 \/ n = 6 \/ n = 7) by lia.
  destruct Hcases as [-> | [-> | [-> | [-> | ->]]]];
    split; vm_compute; reflexivity.
Qed.

(** X12: entering one of the numbers 3 to 7 and clicking Go starts the
    round of that size, whatever state the game was in: the status line is
    cleared, the engine holds the [n] freshly generated pieces - ids
    [btn-1] to [btn-n], orders 1 to [n], numbers shown, no click handlers -
    with the expected order 1 and the scrambling flag clear, and the first
    scramble callback is added to the timer queue, due [n] seconds
    later. *)
Theorem go_starts_round (n : Z) (w : Browser) :
  3 <= n <= 7 ->
  let w' := step (step w (TypeInput (toString n))) ClickGo in
  freshRound (randomCalls w) n (game w') /\
  ui (game w') = mkUIHandler (toString n) "" /\
  timers w'
  = enqueue (mkTimer (now w + 1000 * n) (ScrambleSequence n n)) (timers w) /\
  randomCalls w' = (randomCalls w + Z.to_nat n)%nat.
Proof.
  intros Hn. cbv zeta.
  destruct (parseInt_round_size n Hn) as [Hsan Hparse].
  set (w1 := step w (TypeInput (toString n))).
  assert (Hval : parseInt (input_value (ui (game w1))) = Int n).
  { subst w1. simpl. now rewrite Hsan. }
  change (step w1 ClickGo) with (goBtn_onclick startGame w1).
  rewrite (goBtn_onclick_accepts startGame w1 n Hval Hn).
  destruct (startGame_closed n (on_game (ui_displayStatus "") w1))
    as (Hg & Ht & Hc & _).
  rewrite Hg, Ht, Hc. subst w1.
  split; [apply generatedPieces_fresh|].
  cbn [ui]. simpl. rewrite Hsan.
  repeat split. do 2 f_equal. lia.
Qed.

Lemma rounds_apart_checked (evs : list Event) (w : Browser) :
  rounds_apart_check evs w = true -> rounds_apart evs w.
Proof.
  revert w. induction evs as [|e evs IH]; intros w H; simpl in *; [exact I|].
  apply Bool.andb_true_iff in H. destruct H as [Hq Hrest].
  split; [|now apply IH]. intros Hst. rewrite Hst in Hq. simpl in Hq.
  now destruct (timers w).
Qed.

End Game.

(** ** The script on examples *)

Lemma ordered_clicks_win_witness :
  map order (buttons sample_round) = map Z.of_nat (seq 1 3) /\
  expectedOrder sample_round = 1 /\
  (3 <= 3)%nat /\
  let g3 := clicks sample_MESSAGES (seq 0 3) (prepareForUser sample_round) in
  expectedOrder g3 = 4 /\
  messageDisplay (ui g3) = sample_MESSAGES excellentMemory.
Proof.
  split; [reflexivity|]. split; [reflexivity|]. split; [lia|].
  destruct (ordered_clicks_win sample_MESSAGES 3 sample_round
              eq_refl eq_refl 3 (le_n 3)) as (H1 & _ & _ & _ & H5).
  split; [exact H1 | exact H5].
Defined.



Lemma startGame_numbers_pieces_witness :
  3 <= 3 <= 7 /\
  map order
    (buttons (game (startGame exact_rounding sample_random 3
                      (loaded sample_window))))
  = [1; 2; 3].
Proof.
  split; [lia|].
  destruct (startGame_numbers_pieces exact_rounding sample_random 3
              (loaded sample_window)) as (_ & H & _); [lia | exact H].
Defined.

Lemma scramble_countdown_witness :
  3 <= 3 <= 7 /\
  timers sample_page = [] /\
  let wr :=
    Nat.iter 3 (fireTimer exact_rounding sample_random)
      (scrambleSequence exact_rounding sample_random 3 3 sample_page) in
  randomCalls wr = (3 + 3 * (2 * 3))%nat /\
  isScrambling (game wr) = false /\
  timers wr = [] /\
  timers (scrambleSequence exact_rounding sample_random 3 3 sample_page)
  = [mkTimer 2000 (ScrambleSequence 3 2)] /\
  (fun b => (style_position (element b), style_left (element b),
             style_top (element b)))
    <$> buttons (game (scramblePass exact_rounding sample_random sample_page))
        !! 1%nat
  = Some ("absolute", "420px", "432px").
Proof.
  split; [lia|]. split; [reflexivity|].
  destruct (scramble_countdown exact_rounding sample_random 3 sample_page)
    as (_ & _ & Ht & Hpass & _ & _ & H2 & H3 & _ & _ & _ & H7 & _);
    [lia | reflexivity |].
  split; [exact H2|]. split; [exact H3|]. split; [exact H7|]. split.
  - rewrite Ht. reflexivity.
  - destruct (Hpass sample_page) as [_ Hj].
    rewrite (Hj 1%nat (sample_piece 2) eq_refl). vm_compute. reflexivity.
Defined.

Lemma getRandomPosition_in_viewport_witness :
  (forall a b : Q, (a <= b)%Q -> (exact_rounding a <= exact_rounding b)%Q) /\
  (forall z : Z, (exact_rounding (inject_Z z) == inject_Z z)%Q) /\
  fst (getRandomPosition exact_rounding sample_random sample_page)
  = (252, 288) /\
  0 <= fst (fst (getRandomPosition exact_rounding sample_random sample_page))
    <= 1000 - 160 /\
  0 <= snd (fst (getRandomPosition exact_rounding sample_random sample_page))
    <= 800 - 80.
Proof.
  assert (Hm : forall a b : Q, (a <= b)%Q ->
                 (exact_rounding a <= exact_rounding b)%Q)
    by (intros a b H; exact H).
  assert (Hi : forall z : Z, (exact_rounding (inject_Z z) == inject_Z z)%Q)
    by (intros z; apply Qeq_refl).
  split; [exact Hm|]. split; [exact Hi|]. split; [reflexivity|].
  destruct (getRandomPosition_in_viewport exact_rounding Hm Hi sample_random
              sample_page) as (Hx & Hy & _).
  split; [apply Hx | apply Hy]; simpl; lia.
Defined.

Lemma click_while_scrambling_ignored_witness :
  let w := on_game (set_isScrambling true)
             (on_game prepareForUser sample_page) in
  isScrambling (game w) = true /\
  onclick (element (enableClick HandleButtonClick
                      (showNumber false (sample_piece 1))))
  = Some HandleButtonClick /\
  step sample_MESSAGES exact_rounding sample_random w (ClickPiece 0) = w.
Proof.
  intros w. split; [reflexivity|]. split; [reflexivity|].
  destruct (click_while_scrambling_ignored sample_MESSAGES exact_rounding
              sample_random 0 w eq_refl) as (_ & _ & H).
  exact H.
Defined.

Lemma go_validates_round_size_witness :
  let typed text :=
    step sample_MESSAGES exact_rounding sample_random sample_page
      (TypeInput text) in
  let start := startGame exact_rounding sample_random in
  parseInt (input_value (ui (game (typed "5")))) = Int 5 /\
  goBtn_onclick sample_MESSAGES start (typed "5")
  = start 5 (on_game (ui_displayStatus "") (typed "5")) /\
  isValidFloatingPointNumber "five" = false /\
  goBtn_onclick sample_MESSAGES start (typed "five")
  = on_game (ui_displayStatus (sample_MESSAGES invalidInput)) (typed "five").
Proof.
  intros typed start.
  assert (Hp : parseInt (input_value (ui (game (typed "5")))) = Int 5)
    by (vm_compute; reflexivity).
  split; [exact Hp|]. split.
  - destruct (go_validates_round_size sample_MESSAGES exact_rounding
                sample_random start (typed "5")) as (_ & _ & _ & _ & Hacc & _).
    apply Hacc; [exact Hp | lia].
  - split; [vm_compute; reflexivity|].
    destruct (go_validates_round_size sample_MESSAGES exact_rounding
                sample_random start sample_page) as (_ & _ & _ & _ & _ & Hrej).
    apply Hrej. vm_compute. reflexivity.
Defined.

Lemma expectedOrder_monotone_bounded_witness :
  let w :=
    run sample_MESSAGES exact_rounding sample_random
      [TypeInput "3"; ClickGo; TimerFires; TimerFires; TimerFires;
       TimerFires; ClickPiece 0; ClickPiece 1]
      (loaded sample_window) in
  expectedOrder (game w) = 3 /\
  1 <= expectedOrder (game w) <= Z.of_nat (length (buttons (game w))) + 1 /\
  expectedOrder
    (game (step sample_MESSAGES exact_rounding sample_random w (ClickPiece 2)))
  = expectedOrder (game w) + 1.
Proof.
  intros w. split; [vm_compute; reflexivity|].
  destruct (expectedOrder_monotone_bounded sample_MESSAGES exact_rounding
              sample_random sample_window
              [TypeInput "3"; ClickGo; TimerFires; TimerFires; TimerFires;
               TimerFires; ClickPiece 0; ClickPiece 1])
    as (Hb & _ & Hstep & _).
  split; [exact Hb|].
  destruct (Hstep (ClickPiece 2)) as (_ & [Hsame | Hup]);
    [vm_compute in Hsame; discriminate Hsame | exact Hup].
Defined.

Lemma disabled_piece_ignores_clicks_witness :
  let g := clicks sample_MESSAGES [0%nat] (prepareForUser sample_round) in
  let btn := disableClick (showNumber true
               (enableClick HandleButtonClick
                  (showNumber false (sample_piece 1)))) in
  buttons g !! 0%nat = Some btn /\
  order btn < expectedOrder g /\
  click sample_MESSAGES 0 g = g /\
  messageDisplay (ui g) = "".
Proof.
  intros g btn.
  assert (Hb : buttons g !! 0%nat = Some btn) by (vm_compute; reflexivity).
  assert (Hlt : order btn < expectedOrder g) by (vm_compute; reflexivity).
  split; [exact Hb|]. split; [exact Hlt|]. split; [|vm_compute; reflexivity].
  destruct (disabled_piece_ignores_clicks sample_MESSAGES exact_rounding
              sample_random) as (_ & _ & _ & Hround & _).
  exact (proj2 (Hround 3%nat sample_round [0%nat] eq_refl eq_refl 0%nat btn Hb Hlt)).
Defined.

(** C4: the script has no round token, and [startGame] leaves the timer
    queue as it finds it, so a continuation scheduled by the previous round
    runs against the pieces of the new one.  With 3 entered, Go is clicked,
    the first scramble pass happens at 3 s, and Go is clicked again at 4 s.
    The second round's pieces stand in their row with the flag clear, to be
    memorized until 7 s, but the first round's continuation
    [scrambleSequence(3, 2)] is still queued for 5 s.  When it fires it sets
    the scrambling flag and moves the second round's pieces.  Four firings
    later, at 9 s, the first round's last continuation calls
    [prepareForUser] on the second round, whose own countdown is still
    pending: labels are hidden and the pieces accept clicks.  Piece 1 is
    clicked and accepted; the second round's own countdown then goes on
    and, at 13 s, hands the round over a second time, with piece 1 hidden
    and clickable again, so that clicking it once more loses the round. *)
Theorem stale_callback_acts_on_new_round :
  let go := run sample_MESSAGES exact_rounding sample_random in
  let positions w :=
    map (fun b => style_position (element b)) (buttons (game w)) in
  let w1 :=
    go [TypeInput "3"; ClickGo; TimerFires; TimePasses 1000; ClickGo]
      (loaded sample_window) in
  now w1 = 4000 /\
  timers w1 = [mkTimer 5000 (ScrambleSequence 3 2);
               mkTimer 7000 (ScrambleSequence 3 3)] /\
  isScrambling (game w1) = false /\
  positions w1 = ["relative"; "relative"; "relative"] /\
  let w2 := go [TimerFires] w1 in
  now w2 = 5000 /\
  timers w2 = [mkTimer 7000 (ScrambleSequence 3 3);
               mkTimer 7000 (ScrambleSequence 3 1)] /\
  isScrambling (game w2) = true /\
  positions w2 = ["absolute"; "absolute"; "absolute"] /\
  let w3 := go [TimerFires; TimerFires; TimerFires; TimerFires] w2 in
  now w3 = 9000 /\
  timers w3 = [mkTimer 11000 (ScrambleSequence 3 1)] /\
  isScrambling (game w3) = false /\
  map (fun b => (textContent (element b), onclick (element b)))
    (buttons (game w3))
  = [("", Some HandleButtonClick); ("", Some HandleButtonClick);
     ("", Some HandleButtonClick)] /\
  let w4 := go [ClickPiece 0; TimerFires; TimerFires] w3 in
  now w4 = 13000 /\
  timers w4 = [] /\
  expectedOrder (game w4) = 2 /\
  map (fun b => (textContent (element b), onclick (element b)))
    (buttons (game w4))
  = [("", Some HandleButtonClick); ("", Some HandleButtonClick);
     ("", Some HandleButtonClick)] /\
  messageDisplay (ui (game (go [ClickPiece 0] w4)))
  = sample_MESSAGES wrongOrder.
Proof. vm_compute. repeat split. Qed.

(** C10: [handleButtonClick] takes the handler off a piece it accepts, and
    while nothing but clicks happens the piece stays without it.  But
    [prepareForUser] gives every piece a handler, accepted ones included,
    and with two countdowns pending it runs twice in one round.  With 3
    entered, Go is clicked, and clicked again at 4 s.  At 9 s the first
    countdown ends and hands the round to the player.  Piece 1 is clicked
    and accepted: it shows its number, has no handler, the expected order
    is 2, and a second click on it does nothing.  At 13 s the second
    countdown ends: no timer is pending, the scrambling flag is clear, the
    expected order is still 2, and piece 1, of order 1, is hidden and has
    its handler again.  A click on it now runs [handleButtonClick], which
    takes the wrong-order branch: all labels are revealed, all handlers
    removed, and the wrong-order message is displayed. *)
Theorem accepted_piece_rearmed_by_second_handover :
  let go := run sample_MESSAGES exact_rounding sample_random in
  let piece i w :=
    (fun b => (order b, textContent (element b), onclick (element b)))
      <$> buttons (game w) !! i in
  let w1 :=
    go [TypeInput "3"; ClickGo; TimerFires; TimePasses 1000; ClickGo;
        TimerFires; TimerFires; TimerFires; TimerFires; TimerFires]
      (loaded sample_window) in
  now w1 = 9000 /\
  isScrambling (game w1) = false /\
  expectedOrder (game w1) = 1 /\
  piece 0%nat w1 = Some (1, "", Some HandleButtonClick) /\
  let w2 := go [ClickPiece 0] w1 in
  isScrambling (game w2) = false /\
  expectedOrder (game w2) = 2 /\
  piece 0%nat w2 = Some (1, "1", None) /\
  messageDisplay (ui (game w2)) = "" /\
  go [ClickPiece 0] w2 = w2 /\
  let w3 := go [TimerFires; TimerFires] w2 in
  now w3 = 13000 /\
  timers w3 = [] /\
  isScrambling (game w3) = false /\
  expectedOrder (game w3) = 2 /\
  piece 0%nat w3 = Some (1, "", Some HandleButtonClick) /\
  let w4 := go [ClickPiece 0] w3 in
  messageDisplay (ui (game w4)) = sample_MESSAGES wrongOrder /\
  expectedOrder (game w4) = 2 /\
  map (fun b => (textContent (element b), onclick (element b)))
    (buttons (game w4))
  = [("1", None); ("2", None); ("3", None)].
Proof. vm_compute. repeat split. Qed.

(** A colour of 3, 4, 6 or 8 hexadecimal digits is declared on the
    element; the assignment of any other string is dropped, as for the
    colours of fewer than six digits that [toString(16)] makes without
    padding. *)
Example createHTMLElement_background :
  parseCssColor "#c0ffee" = Some (mkCssColor 192 255 238 255) /\
  parseCssColor "#abc" = Some (mkCssColor 170 187 204 255) /\
  parseCssColor "#0" = None /\
  parseCssColor "#1a2b3" = None /\
  style_backgroundColor (createHTMLElement "#c0ffee" 1)
  = Some (mkCssColor 192 255 238 255) /\
  style_backgroundColor (createHTMLElement "#0" 1) = None /\
  style_backgroundColor (createHTMLElement "#1a2b3" 1) = None.
Proof. vm_compute. repeat split. Qed.

(** The scenario of a whole round of 3: Go, the memorization pause, three
    scramble passes two seconds apart, then the pieces clicked in order. *)
Example round_of_three_won :
  let go := run sample_MESSAGES exact_rounding sample_random in
  let w :=
    go [TypeInput "3"; ClickGo; TimerFires; TimerFires; TimerFires;
        TimerFires] (loaded sample_window) in
  now w = 9000 /\ timers w = [] /\ isScrambling (game w) = false /\
  map (fun b => (order b, textContent (element b), onclick (element b)))
    (buttons (game w))
  = [(1, "", Some HandleButtonClick); (2, "", Some HandleButtonClick);
     (3, "", Some HandleButtonClick)] /\
  let w' := go [ClickPiece 0; ClickPiece 1; ClickPiece 2] w in
  map (fun b => textContent (element b)) (buttons (game w')) = ["1"; "2"; "3"] /\
  messageDisplay (ui (game w')) = sample_MESSAGES excellentMemory /\
  expectedOrder (game w') = 4.
Proof. vm_compute. repeat split. Qed.

(** The same round lost: piece 2 is clicked first. *)
Example round_of_three_lost :
  let go := run sample_MESSAGES exact_rounding sample_random in
  let w :=
    go [TypeInput "3"; ClickGo; TimerFires; TimerFires; TimerFires;
        TimerFires; ClickPiece 1] (loaded sample_window) in
  map (fun b => (textContent (element b), onclick (element b)))
    (buttons (game w))
  = [("1", None); ("2", None); ("3", None)] /\
  messageDisplay (ui (game w)) = sample_MESSAGES wrongOrder /\
  expectedOrder (game w) = 1.
Proof. vm_compute. repeat split. Qed.

(** ** Further examples *)

Lemma scramblePass_places_inside_witness :
  (forall a b : Q, (a <= b)%Q -> (exact_rounding a <= exact_rounding b)%Q) /\
  (forall z : Z, (exact_rounding (inject_Z z) == inject_Z z)%Q) /\
  let w' := scramblePass exact_rounding sample_random sample_page in
  randomCalls w' = (3 + 2 * 3)%nat /\
  isScrambling (game w') = true /\
  map (fun b => (style_position (element b), style_left (element b),
                 style_top (element b), textContent (element b)))
    (buttons (game w'))
  = [("absolute", "252px", "288px", "1"); ("absolute", "420px", "432px", "2");
     ("absolute", "588px", "576px", "3")].
Proof.
  assert (Hm : forall a b : Q, (a <= b)%Q ->
                 (exact_rounding a <= exact_rounding b)%Q)
    by (intros a b H; exact H).
  assert (Hi : forall z : Z, (exact_rounding (inject_Z z) == inject_Z z)%Q)
    by (intros z; apply Qeq_refl).
  split; [exact Hm|]. split; [exact Hi|].
  destruct (scramblePass_places_inside exact_rounding Hm Hi sample_random
              sample_page) as (_ & Hc & Hs & _).
  split; [exact Hc|]. split; [exact Hs|]. vm_compute. reflexivity.
Defined.

Lemma round_timetable_witness :
  0 <= 3 /\
  timers (loaded sample_window) = [] /\
  let fire := fireTimer exact_rounding sample_random in
  let w0 := startGame exact_rounding sample_random 3 (loaded sample_window) in
  timers w0 = [mkTimer 3000 (ScrambleSequence 3 3)] /\
  now (Nat.iter 4 fire w0) = 9000 /\
  timers (Nat.iter 4 fire w0) = [].
Proof.
  split; [lia|]. split; [reflexivity|].
  destruct (round_timetable exact_rounding sample_random 3
              (loaded sample_window)) as (H1 & _ & H3 & _ & H5);
    [lia | reflexivity |].
  split; [exact H1|]. split; [exact H3 | exact H5].
Defined.

Lemma countdown_shows_numbers_witness :
  0 <= 3 /\
  timers (loaded sample_window) = [] /\
  (2 <= Z.to_nat 3)%nat /\
  let w2 :=
    Nat.iter 2 (fireTimer exact_rounding sample_random)
      (startGame exact_rounding sample_random 3 (loaded sample_window)) in
  expectedOrder (game w2) = 1 /\
  step sample_MESSAGES exact_rounding sample_random w2 (ClickPiece 1) = w2.
Proof.
  split; [lia|]. split; [reflexivity|]. split; [vm_compute; lia|].
  destruct (countdown_shows_numbers sample_MESSAGES exact_rounding
              sample_random 3 (loaded sample_window))
    with (k := 2%nat) as (_ & _ & He & _ & Hclick);
    [lia | reflexivity | vm_compute; lia |].
  split; [exact He | apply Hclick].
Defined.

Lemma play_is_won_or_lost_witness :
  map order (buttons sample_round) = map Z.of_nat (seq 1 3) /\
  expectedOrder sample_round = 1 /\
  let g := clicks sample_MESSAGES [0; 2; 1]%nat (prepareForUser sample_round) in
  (playing sample_MESSAGES 3 "" g \/ lost sample_MESSAGES 3 g) /\
  messageDisplay (ui g) = sample_MESSAGES wrongOrder /\
  expectedOrder g = 2.
Proof.
  split; [reflexivity|]. split; [reflexivity|].
  split; [|split; vm_compute; reflexivity].
  exact (play_is_won_or_lost sample_MESSAGES 3 sample_round [0; 2; 1]%nat
           eq_refl eq_refl).
Defined.

Lemma clickable_iff_hidden_witness :
  map order (buttons sample_round) = map Z.of_nat (seq 1 3) /\
  expectedOrder sample_round = 1 /\
  let g := clicks sample_MESSAGES [1; 0]%nat (prepareForUser sample_round) in
  map (fun b => (textContent (element b), onclick (element b))) (buttons g)
  = [("1", None); ("2", None); ("3", None)] /\
  forall j b, buttons g !! j = Some b ->
    (onclick (element b) = Some HandleButtonClick
     <-> textContent (element b) = "") /\
    (onclick (element b) = None
     <-> textContent (element b) = toString (order b)).
Proof.
  split; [reflexivity|]. split; [reflexivity|].
  split; [vm_compute; reflexivity|].
  exact (clickable_iff_hidden sample_MESSAGES 3 sample_round [1; 0]%nat
           eq_refl eq_refl).
Defined.

Lemma won_round_is_final_witness :
  map order (buttons sample_round) = map Z.of_nat (seq 1 3) /\
  expectedOrder sample_round = 1 /\
  (0 < 3)%nat /\
  let g :=
    clicks sample_MESSAGES [0; 0; 1; 2]%nat (prepareForUser sample_round) in
  expectedOrder g = Z.of_nat 3 + 1 /\
  messageDisplay (ui g) = sample_MESSAGES excellentMemory /\
  clicks sample_MESSAGES [2; 0; 1]%nat g = g.
Proof.
  split; [reflexivity|]. split; [reflexivity|]. split; [lia|].
  assert (Hwon : expectedOrder
            (clicks sample_MESSAGES [0; 0; 1; 2]%nat
               (prepareForUser sample_round)) = Z.of_nat 3 + 1)
    by (vm_compute; reflexivity).
  destruct (won_round_is_final sample_MESSAGES 3 sample_round
              [0; 0; 1; 2]%nat eq_refl eq_refl (Nat.lt_0_succ 2) Hwon)
    as (Hm & _ & Hfinal).
  split; [exact Hwon|]. split; [exact Hm | apply Hfinal].
Defined.

Lemma countdown_locks_pieces_witness :
  let evs := [TypeInput "3"; ClickGo; TimerFires; TimerFires; ClickPiece 0] in
  rounds_apart sample_MESSAGES exact_rounding sample_random evs
    (loaded sample_window) /\
  let w := run sample_MESSAGES exact_rounding sample_random evs
             (loaded sample_window) in
  timers w = [mkTimer 7000 (ScrambleSequence 3 1)] /\
  (length (timers w) <= 1)%nat /\
  expectedOrder (game w) = 1.
Proof.
  intros evs.
  assert (Hap : rounds_apart sample_MESSAGES exact_rounding sample_random evs
                  (loaded sample_window)).
  { apply rounds_apart_checked. vm_compute. reflexivity. }
  split; [exact Hap|].
  assert (Ht : timers (run sample_MESSAGES exact_rounding sample_random evs
                         (loaded sample_window))
               = [mkTimer 7000 (ScrambleSequence 3 1)])
    by (vm_compute; reflexivity).
  destruct (countdown_locks_pieces sample_MESSAGES exact_rounding
              sample_random sample_window evs Hap) as (Hlen & Hpend & _).
  split; [exact Ht|]. split; [exact Hlen|].
  apply Hpend. rewrite Ht. discriminate.
Defined.

Lemma pieces_keep_identity_witness :
  let w := on_game prepareForUser sample_page in
  startsRound w (ClickPiece 1) = false /\
  let w' := step sample_MESSAGES exact_rounding sample_random w
              (ClickPiece 1) in
  messageDisplay (ui (game w')) = sample_MESSAGES wrongOrder /\
  map pieceIdentity (buttons (game w')) = map pieceIdentity (buttons (game w)) /\
  gameArea (game w') = ["btn-1"; "btn-2"; "btn-3"].
Proof.
  intros w. split; [reflexivity|].
  destruct (pieces_keep_identity sample_MESSAGES exact_rounding sample_random
              w (ClickPiece 1) eq_refl) as (Hid & Harea).
  split; [vm_compute; reflexivity|]. split; [exact Hid | exact Harea].
Defined.

Lemma go_starts_round_witness :
  3 <= 5 <= 7 /\
  let w' :=
    step sample_MESSAGES exact_rounding sample_random
      (step sample_MESSAGES exact_rounding sample_random
         (loaded sample_window) (TypeInput (toString 5)))
      ClickGo in
  timers w' = [mkTimer 5000 (ScrambleSequence 5 5)] /\
  randomCalls w' = 5%nat.
Proof.
  split; [lia|].
  destruct (go_starts_round sample_MESSAGES exact_rounding sample_random 5
              (loaded sample_window)) as (_ & _ & Ht & Hc); [lia|].
  split; [exact Ht | exact Hc].
Defined.
